(** * surrealdb.connections.blocking_http

    A shallow embedding of [BlockingHttpSurrealConnection]
    (src/surrealdb/connections/blocking_http.py) and the properties of its
    session state, request envelopes and response handling.

    Python objects that are mutated in place (the [dict] behind [self.vars],
    the [dict] a caller hands to [query]) live in a store of dictionaries and
    are passed around by reference.  A method is a computation over the state
    of the connection and of that store which either returns or raises; what
    was written before an exception was raised stays written. *)

From Stdlib Require Import ZArith Ascii String.
From stdpp Require Import base option list gmap strings fin_maps.

Set Warnings "-register-all".
Open Scope string_scope.

(** ** Values *)

(** Decoded CBOR data and call arguments: [None], booleans, integers,
    strings, lists, string-keyed dicts, and the two identifier types of
    [surrealdb.data.types]. *)
Inductive value :=
| VNone
| VBool (b : bool)
| VInt (z : Z)
| VStr (s : string)
| VList (l : list value)
| VDict (d : gmap string value)
| VRecordID (table_name : string) (identifier : value)
| VTable (name : string).

(** Python truthiness, as tested by [if self.token:]. *)
Definition truthy (v : value) : bool :=
  match v with
  | VNone => false
  | VBool b => b
  | VInt z => negb (z =? 0)%Z
  | VStr s => negb (String.eqb s "")
  | VList l => negb (Nat.eqb (length l) 0)
  | VDict d => negb (Nat.eqb (size d) 0)
  | VRecordID _ _ | VTable _ => true
  end.

(** [if self.namespace:] on an [Optional[str]]. *)
Definition truthy_opt (o : option string) : bool :=
  match o with
  | Some s => negb (String.eqb s "")
  | None => false
  end.

(** [d.get(k)] on a dict: [None] when the key is absent. *)
Definition dict_get (d : gmap string value) (k : string) : value :=
  default VNone (d !! k).

(** The field [k] of a decoded payload, if the payload is a dict holding it. *)
Definition field (v : value) (k : string) : option value :=
  match v with
  | VDict d => d !! k
  | _ => None
  end.

(** ** Strings *)

(** [sep in s] for a one-character separator. *)
Fixpoint contains (sep : ascii) (s : string) : bool :=
  match s with
  | EmptyString => false
  | String c rest => if Ascii.eqb c sep then true else contains sep rest
  end.

(** [s.split(sep)] for a one-character separator: every occurrence splits. *)
Fixpoint split (sep : ascii) (s : string) : list string :=
  match s with
  | EmptyString => [EmptyString]
  | String c rest =>
      if Ascii.eqb c sep then EmptyString :: split sep rest
      else match split sep rest with
           | h :: t => String c h :: t
           | [] => [String c EmptyString]
           end
  end.

(** [s.split(sep, 1)]: one split, at the first occurrence. *)
Fixpoint split_once (sep : ascii) (s : string) : list string :=
  match s with
  | EmptyString => [EmptyString]
  | String c rest =>
      if Ascii.eqb c sep then [EmptyString; rest]
      else match split_once sep rest with
           | h :: t => String c h :: t
           | [] => [String c EmptyString]
           end
  end.

Definition colon : ascii := ":"%char.

(** ** Requests, responses, exceptions *)

Inductive RequestMethod :=
| AUTHENTICATE | INVALIDATE | SIGN_UP | SIGN_IN | INFO | USE | QUERY
| CREATE | DELETE | INSERT | INSERT_RELATION | MERGE | PATCH | SELECT
| UPDATE | VERSION | UPSERT.

(** References into the store of dictionaries. *)
Abbreviation loc := nat (only parsing).

(** Correlation identifiers: the n-th identifier drawn from [uuid.uuid4]. *)
Abbreviation uuid := nat (only parsing).

(** A keyword argument of [RequestMessage]: a value, or a reference to a
    dictionary of the store (the [params] of a query). *)
Inductive arg :=
| Imm (v : value)
| Ref (l : loc).

(** Modelled from the spec: [RequestMessage]
    (surrealdb/request_message/message.py is not among the sources).  An
    envelope carries a correlation id generated when it is built, the method,
    and the keyword arguments the call site passes, in call-site order. *)
Record RequestMessage := {
  msg_id : uuid;
  method : RequestMethod;
  kwargs : list (string * arg);
}.

(** What [message.WS_CBOR_DESCRIPTOR] hands to the transport: the envelope
    with every dictionary reference read through the store at that moment.
    The byte encoding itself is the codec's. *)
Record wire_message := {
  wire_id : uuid;
  wire_method : RequestMethod;
  wire_args : list (string * value);
}.

Record http_request := {
  url : string;
  headers : gmap string string;
  data : wire_message;
}.

(** The server's answer to [requests.post]: a status code and the body as
    [decode] reads it ([None] when [decode] raises). *)
Record http_response := {
  status_code : Z;
  content : option value;
}.

Inductive exn :=
| RequestException
| HTTPError (status : Z)
| DecodeError
| RemoteError (code message : value) (operation : string)
| ProtocolError (operation : string)
| KeyError (key : string)
| IndexError
| TypeError.

Inductive result (A : Type) :=
| Ok (a : A)
| Raise (e : exn).
Arguments Ok {A} a.
Arguments Raise {A} e.

(** ** State *)

(** The attributes of the connection object ([token], [id], [namespace],
    [database], [vars], the raw url), the store of dictionaries [heap], the
    requests posted so far (latest first) and the number of identifiers drawn
    so far. *)
Record state := {
  raw_url : string;
  token : value;
  id : uuid;
  namespace : option string;
  database : option string;
  vars : loc;
  heap : list (gmap string value);
  sent : list http_request;
  uuids : nat;
}.

Definition with_token (t : value) (s : state) : state :=
  {| raw_url := raw_url s; token := t; id := id s; namespace := namespace s;
     database := database s; vars := vars s; heap := heap s; sent := sent s;
     uuids := uuids s |}.
Definition with_id (i : uuid) (s : state) : state :=
  {| raw_url := raw_url s; token := token s; id := i; namespace := namespace s;
     database := database s; vars := vars s; heap := heap s; sent := sent s;
     uuids := uuids s |}.
Definition with_namespace (n : option string) (s : state) : state :=
  {| raw_url := raw_url s; token := token s; id := id s; namespace := n;
     database := database s; vars := vars s; heap := heap s; sent := sent s;
     uuids := uuids s |}.
Definition with_database (d : option string) (s : state) : state :=
  {| raw_url := raw_url s; token := token s; id := id s; namespace := namespace s;
     database := d; vars := vars s; heap := heap s; sent := sent s;
     uuids := uuids s |}.
Definition with_heap (h : list (gmap string value)) (s : state) : state :=
  {| raw_url := raw_url s; token := token s; id := id s; namespace := namespace s;
     database := database s; vars := vars s; heap := h; sent := sent s;
     uuids := uuids s |}.
Definition with_sent (l : list http_request) (s : state) : state :=
  {| raw_url := raw_url s; token := token s; id := id s; namespace := namespace s;
     database := database s; vars := vars s; heap := heap s; sent := l;
     uuids := uuids s |}.
Definition with_uuids (n : nat) (s : state) : state :=
  {| raw_url := raw_url s; token := token s; id := id s; namespace := namespace s;
     database := database s; vars := vars s; heap := heap s; sent := sent s;
     uuids := n |}.

(** The dictionary behind a reference. *)
Definition deref (s : state) (l : loc) : gmap string value :=
  default ∅ (heap s !! l).

(** The session's bound variables: the dictionary behind [self.vars]. *)
Definition bound (s : state) : gmap string value := deref s (vars s).

(** ** Computations that may raise *)

Definition M (A : Type) : Type := state → result A * state.

Definition ret {A} (a : A) : M A := λ s, (Ok a, s).
Definition raise {A} (e : exn) : M A := λ s, (Raise e, s).
Definition bind {A B} (m : M A) (k : A → M B) : M B :=
  λ s, match m s with
       | (Ok a, s') => k a s'
       | (Raise e, s') => (Raise e, s')
       end.
Definition get : M state := λ s, (Ok s, s).
Definition modify (f : state → state) : M unit := λ s, (Ok tt, f s).

#[global] Instance M_ret : MRet M := @ret.
#[global] Instance M_bind : MBind M := λ A B k m, bind m k.

#[global] Instance result_ret : MRet result := @Ok.
#[global] Instance result_bind : MBind result :=
  λ A B k r, match r with
             | Ok a => k a
             | Raise e => Raise e
             end.

(** [for x in l: body(x)]. *)
Fixpoint for_each {A} (l : list A) (body : A → M unit) : M unit :=
  match l with
  | [] => ret tt
  | x :: l' => body x;; for_each l' body
  end.

(** [d[k] = v] on the dictionary behind [l]. *)
Definition dict_setitem (l : loc) (k : string) (v : value) : M unit :=
  modify (λ s, with_heap (<[l := <[k := v]> (deref s l)]> (heap s)) s).

(** [d = {}]: a new dictionary in the store. *)
Definition dict_new : M loc :=
  λ s, (Ok (length (heap s)), with_heap (heap s ++ [∅]) s).

(** [v[k]] with a string key. *)
Definition subscript (v : value) (k : string) : result value :=
  match v with
  | VDict d => match d !! k with
               | Some x => Ok x
               | None => Raise (KeyError k)
               end
  | _ => Raise TypeError
  end.

(** [v[0]]. *)
Definition subscript0 (v : value) : result value :=
  match v with
  | VList (x :: _) => Ok x
  | VList [] => Raise IndexError
  | VStr (String c _) => Ok (VStr (String c EmptyString))
  | VStr EmptyString => Raise IndexError
  | VDict _ => Raise (KeyError "0")
  | _ => Raise TypeError
  end.

(** An expression that may raise, evaluated in the current state. *)
Definition lift {A} (r : result A) : M A := λ s, (r, s).

Definition getitem (v : value) (k : string) : M value := lift (subscript v k).
Definition getitem0 (v : value) : M value := lift (subscript0 v).

(** ** The connection *)

Module Conn.

(** Modelled from the spec: [UtilsMixin.check_response_for_error]
    (surrealdb/connections/utils_mixin.py is not among the sources), the
    Response Validator's [check]: it fails with a [RemoteError] carrying the
    error object's code and message and the operation label when the payload
    has an [error], and returns normally otherwise. *)
Definition check_response_for_error (response : value) (process : string)
  : M unit :=
  match field response "error" with
  | Some e =>
      raise (RemoteError (default VNone (field e "code"))
                         (default VNone (field e "message")) process)
  | None => mret tt
  end.

(** Modelled from the spec: [UtilsMixin.check_response_for_result]
    (surrealdb/connections/utils_mixin.py is not among the sources), the
    Response Validator's [extractResult] check: it fails with a
    [ProtocolError] when the payload has no [result]. *)
Definition check_response_for_result (response : value) (process : string)
  : M unit :=
  match field response "result" with
  | Some _ => mret tt
  | None => raise (ProtocolError process)
  end.

(** Modelled from the spec: the constructor of [RequestMessage]
    (surrealdb/request_message/message.py is not among the sources) draws a
    fresh correlation id for every envelope. *)
Definition new_message (m : RequestMethod) (kw : list (string * arg))
  : M RequestMessage :=
  λ s, (Ok {| msg_id := uuids s; method := m; kwargs := kw |},
        with_uuids (S (uuids s)) s).

(** [message.WS_CBOR_DESCRIPTOR], read in state [s]. *)
Definition descriptor (s : state) (message : RequestMessage) : wire_message :=
  {| wire_id := msg_id message;
     wire_method := method message;
     wire_args :=
       (λ '(k, a), (k, match a with
                       | Imm v => v
                       | Ref l => VDict (deref s l)
                       end)) <$> kwargs message |}.

(** [response.raise_for_status()]: client and server error codes raise. *)
Definition raise_for_status (response : http_response) : M unit :=
  if ((400 <=? status_code response) && (status_code response <? 600))%Z
  then raise (HTTPError (status_code response))
  else mret tt.

(** [decode(response.content)]. *)
Definition decode (response : http_response) : M value :=
  match content response with
  | Some v => mret v
  | None => raise DecodeError
  end.

(** [__init__]: a new connection in a store that holds only its [vars]
    dictionary; [url] is the raw url of the parsed [Url]. *)
Definition init (url : string) : state :=
  {| raw_url := url; token := VNone; id := 0; namespace := None;
     database := None; vars := 0; heap := [∅]; sent := []; uuids := 1 |}.

Section Methods.

(** The server: given the requests posted before, what [requests.post]
    answers to a request ([None] when it raises). *)
Variable server : list http_request → http_request → option http_response.

(** Python's [str] on a value. *)
Variable py_str : value → string.

(** [requests.post(url, headers=headers, data=data, timeout=30)]. *)
Definition post (req : http_request) : M http_response :=
  λ s, match server (sent s) req with
       | Some r => (Ok r, with_sent (req :: sent s) s)
       | None => (Raise RequestException, with_sent (req :: sent s) s)
       end.

(** The headers [_send] builds from the session. *)
Definition build_headers (s : state) : gmap string string :=
  let headers : gmap string string :=
    {[ "Accept" := "application/cbor"; "Content-Type" := "application/cbor" ]} in
  let headers :=
    if truthy (token s)
    then <["Authorization" := "Bearer " ++ py_str (token s)]> headers
    else headers in
  let headers :=
    if truthy_opt (namespace s)
    then <["Surreal-NS" := default "" (namespace s)]> headers
    else headers in
  let headers :=
    if truthy_opt (database s)
    then <["Surreal-DB" := default "" (database s)]> headers
    else headers in
  headers.

Definition _send (message : RequestMessage) (operation : string)
    (bypass : bool) : M value :=
  s ← get;
  let data := descriptor s message in
  let url := raw_url s ++ "/rpc" in
  let headers := build_headers s in
  response ← post {| url := url; headers := headers; data := data |};
  raise_for_status response;;
  data_dict ← decode response;
  (if bypass then mret tt else check_response_for_error data_dict operation);;
  mret data_dict.

(** The body shared by the methods that post one envelope and return the
    payload's [result]. *)
Definition call_for_result (m : RequestMethod) (kw : list (string * arg))
    (operation : string) : M value :=
  message ← new_message m kw;
  modify (with_id (msg_id message));;
  response ← _send message operation false;
  check_response_for_result response operation;;
  getitem response "result".

Definition set_token (token : string) : M value :=
  modify (with_token (VStr token));;
  mret VNone.

Definition authenticate (token : string) : M value :=
  modify (with_token (VStr token));;
  message ← new_message AUTHENTICATE [("token", Imm (VStr token))];
  modify (with_id (msg_id message));;
  _send message "authenticating" false;;
  mret VNone.

Definition invalidate : M value :=
  message ← new_message INVALIDATE [];
  modify (with_id (msg_id message));;
  _send message "invalidating" false;;
  modify (with_token VNone);;
  mret VNone.

Definition signup (vars : gmap string value) : M value :=
  message ← new_message SIGN_UP [("data", Imm (VDict vars))];
  modify (with_id (msg_id message));;
  response ← _send message "signup" false;
  check_response_for_result response "signup";;
  r ← getitem response "result";
  modify (with_token r);;
  getitem response "result".

Definition signin (vars : gmap string value) : M value :=
  message ← new_message SIGN_IN
    [("username", Imm (dict_get vars "username"));
     ("password", Imm (dict_get vars "password"));
     ("access", Imm (dict_get vars "access"));
     ("database", Imm (dict_get vars "database"));
     ("namespace", Imm (dict_get vars "namespace"));
     ("variables", Imm (dict_get vars "variables"))];
  modify (with_id (msg_id message));;
  response ← _send message "signing in" false;
  check_response_for_result response "signing in";;
  r ← getitem response "result";
  modify (with_token r);;
  r ← getitem response "result";
  mret (VStr (py_str r)).

Definition info : M value :=
  call_for_result INFO [] "getting database information".

Definition use (namespace database : string) : M value :=
  message ← new_message USE
    [("namespace", Imm (VStr namespace)); ("database", Imm (VStr database))];
  modify (with_id (msg_id message));;
  _send message "use" false;;
  modify (with_namespace (Some namespace));;
  modify (with_database (Some database));;
  mret VNone.

(** [for key, value in self.vars.items(): target[key] = value].  The keys of
    a dict are distinct, so the order of the items does not show in what is
    written; when [target] is [self.vars] itself every write puts back the
    value that is there. *)
Definition copy_vars (target : loc) : M unit :=
  s ← get;
  for_each (map_to_list (bound s)) (λ '(key, value), dict_setitem target key value).

(** [if vars is None: vars = {}]. *)
Definition or_new_dict (vars : option loc) : M loc :=
  match vars with
  | None => dict_new
  | Some l => mret l
  end.

Definition query (query : string) (vars : option loc) : M value :=
  vars ← or_new_dict vars;
  copy_vars vars;;
  message ← new_message QUERY [("query", Imm (VStr query)); ("params", Ref vars)];
  modify (with_id (msg_id message));;
  response ← _send message "query" false;
  check_response_for_result response "query";;
  r ← getitem response "result";
  r0 ← getitem0 r;
  getitem r0 "result".

Definition query_raw (query : string) (params : option loc) : M value :=
  params ← or_new_dict params;
  copy_vars params;;
  message ← new_message QUERY [("query", Imm (VStr query)); ("params", Ref params)];
  modify (with_id (msg_id message));;
  response ← _send message "query" true;
  mret response.

(** The normalisation [create] applies to its [thing]:
    [if isinstance(thing, str): if ":" in thing: ...]. *)
Definition normalize_thing (thing : value) : M value :=
  match thing with
  | VStr t =>
      if contains colon t then
        let buffer := split colon t in
        match buffer !! 0%nat, buffer !! 1%nat with
        | Some b0, Some b1 => mret (VRecordID b0 (VStr b1))
        | _, _ => raise IndexError
        end
      else mret thing
  | _ => mret thing
  end.

Definition create (thing data : value) : M value :=
  thing ← normalize_thing thing;
  call_for_result CREATE [("collection", Imm thing); ("data", Imm data)] "create".

Definition let_ (key : string) (val : value) : M value :=
  s ← get;
  dict_setitem (vars s) key val;;
  mret VNone.

Definition unset (key : string) : M value :=
  s ← get;
  match bound s !! key with
  | Some _ =>
      modify (with_heap (<[vars s := delete key (bound s)]> (heap s)));;
      mret VNone
  | None => raise (KeyError key)
  end.

Definition delete (thing : value) : M value :=
  call_for_result DELETE [("record_id", Imm thing)] "delete".

Definition insert (table data : value) : M value :=
  call_for_result INSERT [("collection", Imm table); ("params", Imm data)] "insert".

Definition insert_relation (table data : value) : M value :=
  call_for_result INSERT_RELATION [("table", Imm table); ("params", Imm data)]
    "insert_relation".

Definition merge (thing data : value) : M value :=
  call_for_result MERGE [("record_id", Imm thing); ("data", Imm data)] "merge".

Definition patch (thing data : value) : M value :=
  call_for_result PATCH [("collection", Imm thing); ("params", Imm data)] "patch".

Definition select (thing : value) : M value :=
  call_for_result SELECT [("params", Imm (VList [thing]))] "select".

Definition update (thing data : value) : M value :=
  call_for_result UPDATE [("record_id", Imm thing); ("data", Imm data)] "update".

Definition version : M value :=
  call_for_result VERSION [] "getting database version".

Definition upsert (thing data : value) : M value :=
  call_for_result UPSERT [("record_id", Imm thing); ("data", Imm data)] "upsert".

(** One call on the connection, with its arguments. *)
Inductive call :=
| Authenticate (token : string)
| Invalidate
| Signup (vars : gmap string value)
| Signin (vars : gmap string value)
| Info
| Use (namespace database : string)
| Query (query : string) (vars : option loc)
| QueryRaw (query : string) (params : option loc)
| Create (thing data : value)
| Delete (thing : value)
| Insert (table data : value)
| InsertRelation (table data : value)
| Let (key : string) (val : value)
| Unset (key : string)
| Merge (thing data : value)
| Patch (thing data : value)
| Select (thing : value)
| Update (thing data : value)
| Version
| Upsert (thing data : value).

Definition run (c : call) : M value :=
  match c with
  | Authenticate t => authenticate t
  | Invalidate => invalidate
  | Signup v => signup v
  | Signin v => signin v
  | Info => info
  | Use ns db => use ns db
  | Query q v => query q v
  | QueryRaw q p => query_raw q p
  | Create t d => create t d
  | Delete t => delete t
  | Insert t d => insert t d
  | InsertRelation t d => insert_relation t d
  | Let k v => let_ k v
  | Unset k => unset k
  | Merge t d => merge t d
  | Patch t d => patch t d
  | Select t => select t
  | Update t d => update t d
  | Version => version
  | Upsert t d => upsert t d
  end.

End Methods.

End Conn.

(** ** Calls, classified *)

(** The methods that never reach [_send]. *)
Definition local_only (c : Conn.call) : bool :=
  match c with
  | Conn.Let _ _ | Conn.Unset _ => true
  | _ => false
  end.

(** The methods that call [_send] without [bypass]. *)
Definition validated (c : Conn.call) : bool :=
  match c with
  | Conn.Let _ _ | Conn.Unset _ | Conn.QueryRaw _ _ => false
  | _ => true
  end.

(** The operation label a method hands to [_send]. *)
Definition label (c : Conn.call) : string :=
  match c with
  | Conn.Authenticate _ => "authenticating"
  | Conn.Invalidate => "invalidating"
  | Conn.Signup _ => "signup"
  | Conn.Signin _ => "signing in"
  | Conn.Info => "getting database information"
  | Conn.Use _ _ => "use"
  | Conn.Query _ _ | Conn.QueryRaw _ _ => "query"
  | Conn.Create _ _ => "create"
  | Conn.Delete _ => "delete"
  | Conn.Insert _ _ => "insert"
  | Conn.InsertRelation _ _ => "insert_relation"
  | Conn.Merge _ _ => "merge"
  | Conn.Patch _ _ => "patch"
  | Conn.Select _ => "select"
  | Conn.Update _ _ => "update"
  | Conn.Version => "getting database version"
  | Conn.Upsert _ _ => "upsert"
  | Conn.Let _ _ | Conn.Unset _ => ""
  end.

(** A caller-supplied dictionary argument refers into the store. *)
Definition valid_arg (s : state) (p : option loc) : Prop :=
  match p with
  | Some l => l < length (heap s)
  | None => True
  end.

(** The dictionary a caller hands to [query]: its own, or a new empty one. *)
Definition arg_dict (s : state) (p : option loc) : gmap string value :=
  match p with
  | Some l => deref s l
  | None => ∅
  end.

(** Where the dictionary a query works on lives. *)
Definition arg_loc (s : state) (p : option loc) : loc :=
  match p with
  | Some l => l
  | None => length (heap s)
  end.

(** [requests] lets a response through when its status is no error code. *)
Definition status_ok (r : http_response) : Prop :=
  (status_code r < 400 ∨ 600 ≤ status_code r)%Z.

(** ** Writing session variables into a dictionary *)

Definition write_all (l : list (string * value)) (d : gmap string value)
  : gmap string value :=
  foldl (λ acc kv, <[kv.1 := kv.2]> acc) d l.

Lemma with_heap_same s : with_heap (heap s) s = s.
Proof. by destruct s. Qed.

Lemma write_all_union l d :
  NoDup (l.*1) → write_all l d = list_to_map l ∪ d.
Proof.
  revert d. induction l as [|[k v] l IH]; intros d Hnd.
  - cbn. by rewrite (left_id_L ∅ (∪)).
  - apply NoDup_cons in Hnd as [Hk Hnd].
    cbn [write_all foldl fst snd]. fold (write_all l (<[k:=v]> d)).
    rewrite IH by done. cbn [list_to_map foldr uncurry].
    rewrite <- insert_union_l. apply eq_sym, insert_union_r.
    by apply not_elem_of_list_to_map_1.
Qed.

Lemma write_all_items (m d : gmap string value) :
  write_all (map_to_list m) d = m ∪ d.
Proof.
  rewrite write_all_union by apply NoDup_fst_map_to_list.
  by rewrite list_to_map_to_list.
Qed.

Lemma for_each_setitem_dangling (target : loc) (l : list (string * value)) s :
  (length (heap s) ≤ target)%nat →
  for_each l (λ '(k, v), dict_setitem target k v) s = (Ok tt, s).
Proof.
  intros Hge. induction l as [|[k v] l IH]; [done|].
  cbn [for_each]. unfold mbind, M_bind, bind. unfold dict_setitem at 1, modify.
  rewrite list_insert_ge by done. by rewrite with_heap_same.
Qed.

Lemma for_each_setitem (target : loc) (l : list (string * value)) s :
  target < length (heap s) →
  for_each l (λ '(k, v), dict_setitem target k v) s
  = (Ok tt, with_heap (<[target := write_all l (deref s target)]> (heap s)) s).
Proof.
  revert s. induction l as [|[k v] l IH]; intros s Hlt.
  - cbn [for_each write_all foldl]. unfold deref, ret.
    destruct (lookup_lt_is_Some_2 _ _ Hlt) as [d Hd]. rewrite Hd. cbn [default].
    by rewrite list_insert_id, with_heap_same.
  - cbn [for_each]. unfold mbind, M_bind, bind. unfold dict_setitem at 1, modify.
    rewrite IH by (cbn; by rewrite length_insert).
    f_equal. unfold deref at 1. cbn [heap with_heap].
    rewrite list_lookup_insert_eq by done. cbn [default].
    rewrite list_insert_insert_eq. by destruct s.
Qed.

Lemma copy_vars_run (target : loc) s :
  Conn.copy_vars target s
  = (Ok tt, with_heap (<[target := bound s ∪ deref s target]> (heap s)) s).
Proof.
  unfold Conn.copy_vars, mbind, M_bind, bind, get.
  destruct (decide (target < length (heap s))) as [Hlt|Hge].
  - rewrite for_each_setitem by done. by rewrite write_all_items.
  - rewrite for_each_setitem_dangling by lia.
    rewrite list_insert_ge by lia. by rewrite with_heap_same.
Qed.

(** ** One round trip *)

(** What [_send] does with the server's answer. *)
Definition receive (operation : string) (bypass : bool)
    (answer : option http_response) : result value :=
  match answer with
  | None => Raise RequestException
  | Some r =>
      if ((400 <=? status_code r) && (status_code r <? 600))%Z
      then Raise (HTTPError (status_code r))
      else match content r with
           | None => Raise DecodeError
           | Some payload =>
               if bypass then Ok payload
               else match field payload "error" with
                    | Some e => Raise (RemoteError (default VNone (field e "code"))
                                         (default VNone (field e "message"))
                                         operation)
                    | None => Ok payload
                    end
           end
  end.

(** What the methods that return [response["result"]] make of it. *)
Definition extract (operation : string) (r : result value) : result value :=
  match r with
  | Ok payload => match field payload "result" with
                  | Some x => Ok x
                  | None => Raise (ProtocolError operation)
                  end
  | Raise e => Raise e
  end.

(** The state once an envelope was built and [self.id] set to its id. *)
Definition stamped (s : state) : state :=
  with_id (uuids s) (with_uuids (S (uuids s)) s).

Section Dispatch.

Variable server : list http_request → http_request → option http_response.
Variable py_str : value → string.

(** The request [_send] posts for a message in state [s]. *)
Definition request (s : state) (message : RequestMessage) : http_request :=
  {| url := raw_url s ++ "/rpc";
     headers := Conn.build_headers py_str s;
     data := Conn.descriptor s message |}.

(** The request a method posts when it builds its envelope in state [s]. *)
Definition request_for (s : state) (m : RequestMethod)
    (kw : list (string * arg)) : http_request :=
  request (stamped s) {| msg_id := uuids s; method := m; kwargs := kw |}.

Lemma send_run message operation bypass s :
  Conn._send server py_str message operation bypass s
  = (receive operation bypass (server (sent s) (request s message)),
     with_sent (request s message :: sent s) s).
Proof.
  unfold Conn._send, mbind, M_bind, bind, get, Conn.post. fold (request s message).
  destruct (server (sent s) (request s message)) as [r|]; [|done].
  unfold receive, Conn.raise_for_status.
  destruct (_ && _); [done|]. cbn.
  unfold Conn.decode. destruct (content r) as [payload|]; [|done]. cbn.
  destruct bypass; [done|].
  unfold Conn.check_response_for_error.
  by destruct (field payload "error").
Qed.

Lemma call_for_result_run m kw operation s :
  Conn.call_for_result server py_str m kw operation s
  = (extract operation
       (receive operation false (server (sent s) (request_for s m kw))),
     with_sent (request_for s m kw :: sent s) (stamped s)).
Proof.
  unfold Conn.call_for_result, mbind, M_bind, bind, Conn.new_message, modify.
  rewrite send_run. cbn [msg_id sent with_id with_uuids].
  fold (stamped s). fold (request_for s m kw).
  destruct (receive _ _ _) as [payload|e]; [|done]. cbn [extract].
  unfold Conn.check_response_for_result.
  destruct payload; try done. cbn [field getitem subscript]. unfold getitem, lift.
  cbn [subscript]. by destruct (_ !! "result").
Qed.

End Dispatch.

(** ** Splitting a string *)

Lemma split_two sep t :
  contains sep t = true → ∃ a b rest, split sep t = a :: b :: rest.
Proof.
  assert (Hne : ∀ u, ∃ a rest, split sep u = a :: rest).
  { induction u as [|c u [a [rest IH]]]; cbn; [by eauto|].
    destruct (Ascii.eqb c sep); [by eauto|]. rewrite IH. by eauto. }
  induction t as [|c t IH]; cbn; [done|].
  destruct (Ascii.eqb c sep).
  - intros _. destruct (Hne t) as [a [rest ->]]. by eauto.
  - intros [a [b [rest ->]]]%IH. by eauto.
Qed.

(** What [create] makes of its [thing]. *)
Definition normalized (thing : value) : value :=
  match thing with
  | VStr t =>
      if contains colon t then
        match split colon t with
        | b0 :: b1 :: _ => VRecordID b0 (VStr b1)
        | _ => thing
        end
      else thing
  | _ => thing
  end.

Lemma normalize_thing_run thing s :
  Conn.normalize_thing thing s = (Ok (normalized thing), s).
Proof.
  destruct thing as [| | |t| | | |]; try done. cbn.
  destruct (contains colon t) eqn:Hc; [|done].
  by destruct (split_two _ _ Hc) as [a [b [rest ->]]].
Qed.

(** ** Calls in closed form *)

(** The state in which a query builds its envelope: the session variables
    are already written into the dictionary it works on. *)
Definition prepared (s : state) (p : option loc) : state :=
  match p with
  | Some l => with_heap (<[l := bound s ∪ deref s l]> (heap s)) s
  | None => with_heap (heap s ++ [bound s]) s
  end.

Lemma lookup_snoc_empty (h : list (gmap string value)) (l : nat) :
  default ∅ ((h ++ [∅])%list !! l) = default ∅ (h !! l).
Proof.
  destruct (decide (l < length h)) as [Hlt|Hge].
  - by rewrite lookup_app_l.
  - rewrite lookup_app_r, (lookup_ge_None_2 h l) by lia.
    by destruct (l - length h) as [|[|n]].
Qed.

Lemma prepare_run p s :
  (l ← Conn.or_new_dict p; Conn.copy_vars l;; mret l) s
  = (Ok (arg_loc s p), prepared s p).
Proof.
  unfold mbind, M_bind, bind. destruct p as [l|]; cbn [Conn.or_new_dict].
  - unfold mret, M_ret, ret. by rewrite copy_vars_run.
  - unfold dict_new. rewrite copy_vars_run. cbn [arg_loc prepared].
    unfold mret, M_ret, ret, bound, deref. cbn [heap with_heap vars].
    rewrite !lookup_snoc_empty.
    rewrite (lookup_ge_None_2 (heap s) (length (heap s))) by lia. cbn [default].
    rewrite (right_id_L ∅ (∪)).
    rewrite insert_app_r_alt, Nat.sub_diag by lia. by destruct s.
Qed.

(** The state in which a call builds its envelope. *)
Definition before (c : Conn.call) (s : state) : state :=
  match c with
  | Conn.Authenticate t => with_token (VStr t) s
  | Conn.Query _ p | Conn.QueryRaw _ p => prepared s p
  | _ => s
  end.

(** The method and keyword arguments of the envelope a call builds;
    [let] and [unset] build none. *)
Definition envelope (c : Conn.call) (s : state)
  : option (RequestMethod * list (string * arg)) :=
  match c with
  | Conn.Authenticate t => Some (AUTHENTICATE, [("token", Imm (VStr t))])
  | Conn.Invalidate => Some (INVALIDATE, [])
  | Conn.Signup v => Some (SIGN_UP, [("data", Imm (VDict v))])
  | Conn.Signin v =>
      Some (SIGN_IN,
            [("username", Imm (dict_get v "username"));
             ("password", Imm (dict_get v "password"));
             ("access", Imm (dict_get v "access"));
             ("database", Imm (dict_get v "database"));
             ("namespace", Imm (dict_get v "namespace"));
             ("variables", Imm (dict_get v "variables"))])
  | Conn.Info => Some (INFO, [])
  | Conn.Use ns db =>
      Some (USE, [("namespace", Imm (VStr ns)); ("database", Imm (VStr db))])
  | Conn.Query q p | Conn.QueryRaw q p =>
      Some (QUERY, [("query", Imm (VStr q)); ("params", Ref (arg_loc s p))])
  | Conn.Create t d =>
      Some (CREATE, [("collection", Imm (normalized t)); ("data", Imm d)])
  | Conn.Delete t => Some (DELETE, [("record_id", Imm t)])
  | Conn.Insert t d => Some (INSERT, [("collection", Imm t); ("params", Imm d)])
  | Conn.InsertRelation t d =>
      Some (INSERT_RELATION, [("table", Imm t); ("params", Imm d)])
  | Conn.Let _ _ | Conn.Unset _ => None
  | Conn.Merge t d => Some (MERGE, [("record_id", Imm t); ("data", Imm d)])
  | Conn.Patch t d => Some (PATCH, [("collection", Imm t); ("params", Imm d)])
  | Conn.Select t => Some (SELECT, [("params", Imm (VList [t]))])
  | Conn.Update t d => Some (UPDATE, [("record_id", Imm t); ("data", Imm d)])
  | Conn.Version => Some (VERSION, [])
  | Conn.Upsert t d => Some (UPSERT, [("record_id", Imm t); ("data", Imm d)])
  end.

(** What a call writes to the session once [_send] has returned or raised
    [rcv]. *)
Definition commit (c : Conn.call) (rcv : result value) (s : state) : state :=
  match c, rcv with
  | Conn.Invalidate, Ok _ => with_token VNone s
  | Conn.Use ns db, Ok _ => with_database (Some db) (with_namespace (Some ns) s)
  | Conn.Signup _, Ok _ | Conn.Signin _, Ok _ =>
      match extract (label c) rcv with
      | Ok x => with_token x s
      | Raise _ => s
      end
  | _, _ => s
  end.

Section Closed.

Variable server : list http_request → http_request → option http_response.
Variable py_str : value → string.

(** What a call returns or raises once [_send] has returned or raised
    [rcv]. *)
Definition finish (c : Conn.call) (rcv : result value) : result value :=
  match c with
  | Conn.Authenticate _ | Conn.Invalidate | Conn.Use _ _ => rcv;; Ok VNone
  | Conn.Signin _ => r ← extract "signing in" rcv; Ok (VStr (py_str r))
  | Conn.Query _ _ =>
      r ← extract "query" rcv; r0 ← subscript0 r; subscript r0 "result"
  | Conn.QueryRaw _ _ => rcv
  | _ => extract (label c) rcv
  end.

Lemma run_eq c s m kw :
  envelope c s = Some (m, kw) →
  let req := request_for py_str (before c s) m kw in
  let rcv := receive (label c) (negb (validated c)) (server (sent s) req) in
  Conn.run server py_str c s
  = (finish c rcv,
     commit c rcv (with_sent (req :: sent s) (stamped (before c s)))).
Proof.
  intros Henv.
  destruct c as [tok| | | | | |q vars|q params| | | | | | | | | | | |];
    cbn in Henv; simplify_eq; cbn zeta;
    cbn [Conn.run label validated negb before finish commit];
    try (unfold Conn.info, Conn.delete, Conn.insert, Conn.insert_relation,
           Conn.merge, Conn.patch, Conn.select, Conn.update, Conn.version,
           Conn.upsert;
         by rewrite call_for_result_run).
  - (* authenticate *)
    unfold Conn.authenticate, mbind, M_bind, bind, modify, Conn.new_message.
    rewrite send_run. fold (stamped (with_token (VStr tok) s)).
    unfold request_for. by destruct (receive _ _ _).
  - (* invalidate *)
    unfold Conn.invalidate, mbind, M_bind, bind, modify, Conn.new_message.
    rewrite send_run. fold (stamped s).
    unfold request_for. by destruct (receive _ _ _).
  - (* signup *)
    unfold Conn.signup, mbind, M_bind, bind, modify, Conn.new_message.
    rewrite send_run. fold (stamped s). unfold request_for.
    cbn [sent with_id with_uuids msg_id].
    destruct (receive _ _ _) as [payload|e]; [|done].
    cbn [extract label]. unfold Conn.check_response_for_result.
    destruct payload; try done. unfold getitem, lift. cbn [field subscript].
    by destruct (_ !! "result").
  - (* signin *)
    unfold Conn.signin, mbind, M_bind, bind, modify, Conn.new_message.
    rewrite send_run. fold (stamped s). unfold request_for.
    cbn [sent with_id with_uuids msg_id].
    destruct (receive _ _ _) as [payload|e]; [|done].
    cbn [extract label result_bind]. unfold Conn.check_response_for_result.
    destruct payload; try done. unfold getitem, lift. cbn [field subscript].
    by destruct (_ !! "result").
  - (* use *)
    unfold Conn.use, mbind, M_bind, bind, modify, Conn.new_message.
    rewrite send_run. fold (stamped s).
    unfold request_for. by destruct (receive _ _ _).
  - (* query *)
    unfold Conn.query.
    pose proof (prepare_run vars s) as Hp.
    unfold mbind, M_bind, bind, mret, M_ret, ret in Hp |- *.
    destruct (Conn.or_new_dict vars s) as [[l|e] s1]; [|done].
    destruct (Conn.copy_vars l s1) as [[[]|e] s2]; [|done].
    simplify_eq. unfold modify, Conn.new_message. rewrite send_run.
    unfold request_for, stamped.
    destruct vars as [l|];
      cbn [prepared arg_loc sent uuids with_heap with_id with_uuids msg_id].
    all: destruct (receive _ _ _) as [payload|e]; [|done].
    all: cbn [extract result_bind]; unfold Conn.check_response_for_result.
    all: destruct payload; try done; unfold getitem, getitem0, lift.
    all: cbn [field subscript].
    all: destruct (_ !! "result") as [r|]; [|done]; cbn [result_bind].
    all: destruct (subscript0 r) as [r0|]; [|done]; cbn [result_bind].
    all: by destruct (subscript r0 "result").
  - (* query_raw *)
    unfold Conn.query_raw.
    pose proof (prepare_run params s) as Hp.
    unfold mbind, M_bind, bind, mret, M_ret, ret in Hp |- *.
    destruct (Conn.or_new_dict params s) as [[l|e] s1]; [|done].
    destruct (Conn.copy_vars l s1) as [[[]|e] s2]; [|done].
    simplify_eq. unfold modify, Conn.new_message. rewrite send_run.
    unfold request_for, stamped.
    destruct params as [l|];
      cbn [prepared arg_loc sent uuids with_heap with_id with_uuids msg_id].
    all: by destruct (receive _ _ _).
  - (* create *)
    unfold Conn.create, mbind, M_bind, bind. rewrite normalize_thing_run.
    by rewrite call_for_result_run.
Qed.

End Closed.

(** ** The dictionary a query works on *)

Lemma deref_prepared s p :
  valid_arg s p → deref (prepared s p) (arg_loc s p) = bound s ∪ arg_dict s p.
Proof.
  destruct p as [l|]; cbn [valid_arg prepared arg_loc arg_dict]; intros Hv.
  - unfold deref at 1. cbn [heap with_heap].
    by rewrite list_lookup_insert_eq.
  - unfold deref at 1. cbn [heap with_heap].
    rewrite lookup_app_r, Nat.sub_diag by lia. cbn.
    by rewrite (right_id_L ∅ (∪)).
Qed.

Lemma bound_prepared s p : bound (prepared s p) = bound s.
Proof.
  unfold bound, deref. destruct p as [l|]; cbn [prepared heap with_heap vars].
  - destruct (decide (l = vars s)) as [->|Hne].
    + destruct (decide (vars s < length (heap s))) as [Hlt|Hge].
      * rewrite list_lookup_insert_eq by done. cbn.
        by rewrite (idemp_L (∪)).
      * by rewrite list_insert_ge by lia.
    + by rewrite list_lookup_insert_ne.
  - destruct (decide (vars s < length (heap s))) as [Hlt|Hge].
    + by rewrite lookup_app_l.
    + rewrite lookup_app_r by lia. unfold bound, deref.
      rewrite (lookup_ge_None_2 (heap s) (vars s)) by lia.
      by destruct (vars s - length (heap s)) as [|[|n]].
Qed.

(** ** Headers *)

Section Headers.

Variable py_str : value → string.

Lemma build_headers_ns s :
  Conn.build_headers py_str s !! "Surreal-NS"
  = if truthy_opt (namespace s) then namespace s else None.
Proof.
  unfold Conn.build_headers.
  destruct (truthy (token s)), (truthy_opt (namespace s)) eqn:Hn,
    (truthy_opt (database s));
    destruct (namespace s); try discriminate Hn; by simplify_map_eq.
Qed.

Lemma build_headers_db s :
  Conn.build_headers py_str s !! "Surreal-DB"
  = if truthy_opt (database s) then database s else None.
Proof.
  unfold Conn.build_headers.
  destruct (truthy (token s)), (truthy_opt (namespace s)),
    (truthy_opt (database s)) eqn:Hd;
    destruct (database s); try discriminate Hd; by simplify_map_eq.
Qed.

Lemma build_headers_authorization s :
  Conn.build_headers py_str s !! "Authorization"
  = if truthy (token s) then Some ("Bearer " ++ py_str (token s)) else None.
Proof.
  unfold Conn.build_headers.
  destruct (truthy (token s)), (truthy_opt (namespace s)),
    (truthy_opt (database s)); by simplify_map_eq.
Qed.

End Headers.

Lemma truthy_opt_spec o x :
  (if truthy_opt o then o else None) = Some x ↔ o = Some x ∧ x ≠ "".
Proof.
  destruct o as [y|]; cbn; [|split; [done|by intros [? _]]].
  destruct (String.eqb_spec y "") as [->|Hne]; cbn.
  - split; [done|]. intros [[= <-] Hx]. by destruct Hx.
  - split; [by intros [= <-]|by intros [? _]].
Qed.

(** ** Splitting once and splitting everywhere *)

Lemma split_once_first sep a b :
  contains sep a = false →
  split_once sep (a ++ String sep b) = [a; b].
Proof.
  induction a as [|c a IH].
  - intros _. change (split_once sep (String sep b) = [""; b]).
    cbn [split_once]. by rewrite Ascii.eqb_refl.
  - change (String c a ++ String sep b) with (String c (a ++ String sep b)).
    cbn [contains split_once].
    destruct (Ascii.eqb c sep); [done|]. intros Ha. by rewrite IH.
Qed.

Lemma split_no_separator sep b :
  contains sep b = false → split sep b = [b].
Proof.
  induction b as [|c b IH]; cbn [contains split]; [done|].
  destruct (Ascii.eqb c sep); [done|]. intros Hb. by rewrite IH.
Qed.

Lemma split_single sep a b :
  contains sep a = false → contains sep b = false →
  split sep (a ++ String sep b) = [a; b].
Proof.
  intros Ha Hb. induction a as [|c a IH].
  - change (split sep (String sep b) = [""; b]).
    cbn [split]. by rewrite Ascii.eqb_refl, split_no_separator.
  - change (String c a ++ String sep b) with (String c (a ++ String sep b)).
    cbn [contains split] in *.
    destruct (Ascii.eqb c sep); [done|]. by rewrite IH.
Qed.

Lemma contains_separator sep a b : contains sep (a ++ String sep b) = true.
Proof.
  induction a as [|c a IH].
  - change (contains sep (String sep b) = true).
    cbn [contains]. by rewrite Ascii.eqb_refl.
  - change (String c a ++ String sep b) with (String c (a ++ String sep b)).
    cbn [contains]. by destruct (Ascii.eqb c sep).
Qed.

(** On a string with exactly one colon [create] builds the reference that
    one split at the first colon gives. *)
Lemma normalized_single_colon a b :
  contains colon a = false → contains colon b = false →
  normalized (VStr (a ++ String colon b)) = VRecordID a (VStr b)
  ∧ split_once colon (a ++ String colon b) = [a; b].
Proof.
  intros Ha Hb. split; [|by apply split_once_first].
  unfold normalized. by rewrite contains_separator, split_single.
Qed.

(** ** Sample sessions *)

(** A stand-in for Python's [str]: exact on strings. *)
Definition str_of (v : value) : string :=
  match v with
  | VStr s => s
  | _ => ""
  end.

(** A server that cannot be reached. *)
Definition unreachable : list http_request → http_request → option http_response :=
  λ _ _, None.

(** A server that answers every request with status 200 and [payload]. *)
Definition answering (payload : value)
  : list http_request → http_request → option http_response :=
  λ _ _, Some {| status_code := 200; content := Some payload |}.

Definition localhost : state := Conn.init "http://localhost:8000".

(** [let("x", 1)] on a new connection, and a caller's [{"x": 2}] in the
    store at reference 1. *)
Definition session_x : state :=
  let s := snd (Conn.let_ "x" (VInt 1) localhost) in
  with_heap (heap s ++ [{[ "x" := VInt 2 ]}]) s.

(** The payload of P4: [{result: [{result: [{"id": "t:1"}]}]}]. *)
Definition rows : value := VList [VDict {[ "id" := VStr "t:1" ]}].
Definition one_statement : value :=
  VDict {[ "result" := VList [VDict {[ "result" := rows ]}] ]}.

(** The payload of P5: [{error: {code: 100, message: "boom"}}]. *)
Definition boom : value :=
  VDict {[ "error" := VDict {[ "code" := VInt 100; "message" := VStr "boom" ]} ]}.

(** ** What a call leaves behind *)

Lemma receive_answer operation bypass resp payload :
  status_ok resp →
  content resp = Some payload →
  receive operation bypass (Some resp)
  = if bypass then Ok payload
    else match field payload "error" with
         | Some e => Raise (RemoteError (default VNone (field e "code"))
                              (default VNone (field e "message")) operation)
         | None => Ok payload
         end.
Proof.
  intros Hst Hc. unfold receive, status_ok in *. rewrite Hc.
  destruct (Z.leb_spec 400 (status_code resp)),
    (Z.ltb_spec (status_code resp) 600); cbn; first [lia | done].
Qed.

Lemma envelope_of_posting c s :
  local_only c = false → ∃ m kw, envelope c s = Some (m, kw).
Proof. destruct c; cbn; intros; by eauto. Qed.

Lemma commit_frame c rcv s :
  sent (commit c rcv s) = sent s
  ∧ id (commit c rcv s) = id s
  ∧ uuids (commit c rcv s) = uuids s
  ∧ heap (commit c rcv s) = heap s
  ∧ vars (commit c rcv s) = vars s.
Proof.
  destruct c, rcv as [payload|e]; cbn [commit label]; try done.
  all: by destruct (extract _ _).
Qed.

Lemma uuids_before c s : uuids (before c s) = uuids s.
Proof.
  destruct c as [| | | | | |q p|q p| | | | | | | | | | | |]; try done;
    by destruct p.
Qed.

Section Frame.

Variable server : list http_request → http_request → option http_response.
Variable py_str : value → string.

Lemma posting_call_state c s m kw :
  envelope c s = Some (m, kw) →
  let s' := snd (Conn.run server py_str c s) in
  sent s' = request_for py_str (before c s) m kw :: sent s
  ∧ id s' = uuids s
  ∧ uuids s' = S (uuids s).
Proof.
  intros Henv. cbn zeta. rewrite (run_eq server py_str c s m kw Henv). cbn [snd].
  destruct (commit_frame c
    (receive (label c) (negb (validated c))
       (server (sent s) (request_for py_str (before c s) m kw)))
    (with_sent (request_for py_str (before c s) m kw :: sent s)
       (stamped (before c s)))) as (-> & -> & -> & _).
  cbn [sent id uuids with_sent stamped with_id with_uuids].
  by rewrite uuids_before.
Qed.

Lemma validated_call_raises c s m kw resp payload e :
  envelope c s = Some (m, kw) →
  validated c = true →
  server (sent s) (request_for py_str (before c s) m kw) = Some resp →
  status_ok resp →
  content resp = Some payload →
  field payload "error" = Some e →
  fst (Conn.run server py_str c s)
  = Raise (RemoteError (default VNone (field e "code"))
             (default VNone (field e "message")) (label c)).
Proof.
  intros Henv Hval Hsrv Hst Hc He.
  rewrite (run_eq server py_str c s m kw Henv). cbn [fst].
  rewrite Hsrv, (receive_answer _ _ _ _ Hst Hc), Hval, He. cbn [negb].
  by destruct c.
Qed.

Lemma query_raw_returns_payload q p s m kw resp payload :
  envelope (Conn.QueryRaw q p) s = Some (m, kw) →
  server (sent s) (request_for py_str (before (Conn.QueryRaw q p) s) m kw)
  = Some resp →
  status_ok resp →
  content resp = Some payload →
  fst (Conn.query_raw server py_str q p s) = Ok payload.
Proof.
  intros Henv Hsrv Hst Hc.
  change (Conn.query_raw server py_str q p s)
    with (Conn.run server py_str (Conn.QueryRaw q p) s).
  rewrite (run_eq server py_str _ s m kw Henv). cbn [fst finish].
  by rewrite Hsrv, (receive_answer _ _ _ _ Hst Hc).
Qed.

End Frame.

(** ** Properties of the connection *)

(** Replace the run of call [c] from state [s] by its closed form. *)
Ltac closed_form srv str c s :=
  let H := fresh in
  pose proof (run_eq srv str c s _ _ eq_refl) as H;
  cbn [Conn.run] in H; cbn zeta in H; rewrite H; clear H.

Section Properties.

Variable server : list http_request → http_request → option http_response.
Variable py_str : value → string.

(** C1.  [query(q, p)] posts an envelope whose parameter mapping is the
    caller's mapping (an empty one if none is given) overwritten by the
    session's bound variables: a key [k] bound to [v] on the connection is
    sent as [v], whatever the caller's mapping holds for [k]. *)
Theorem query_bound_variable_overrides q p s k v :
  valid_arg s p →
  bound s !! k = Some v →
  ∃ req d,
    sent (snd (Conn.query server py_str q p s)) = req :: sent s
    ∧ wire_args (data req) = [("query", VStr q); ("params", VDict d)]
    ∧ d = bound s ∪ arg_dict s p
    ∧ d !! k = Some v.
Proof.
  intros Hv Hk.
  closed_form server py_str (Conn.Query q p) s. cbn [snd].
  eexists _, (bound s ∪ arg_dict s p). split; [done|]. split; [|split; [done|]].
  - rewrite <- (deref_prepared s p Hv). reflexivity.
  - by apply lookup_union_Some_l.
Qed.

(** C4.  A [use(ns, db)] that raises leaves both [namespace] and [database]
    as they were; one that returns has set both, to [ns] and [db]. *)
Theorem use_sets_both_or_neither ns db s :
  match Conn.use server py_str ns db s with
  | (Ok _, s') => namespace s' = Some ns ∧ database s' = Some db
  | (Raise _, s') => namespace s' = namespace s ∧ database s' = database s
  end.
Proof.
  closed_form server py_str (Conn.Use ns db) s.
  cbn [finish commit before].
  by destruct (receive _ _ _).
Qed.

(** C6 (as the code has it).  Every request [_send] posts carries
    [Surreal-NS] exactly when the session's namespace is a non-empty string
    and [Surreal-DB] exactly when its database is one, each header on its
    own. *)
Theorem namespace_and_database_headers_are_independent message operation bypass s :
  ∃ req,
    sent (snd (Conn._send server py_str message operation bypass s))
    = req :: sent s
    ∧ (∀ ns, headers req !! "Surreal-NS" = Some ns
             ↔ namespace s = Some ns ∧ ns ≠ "")
    ∧ (∀ db, headers req !! "Surreal-DB" = Some db
             ↔ database s = Some db ∧ db ≠ "").
Proof.
  rewrite send_run. eexists. split; [done|].
  unfold request. cbn [headers]. split; intros x.
  - rewrite build_headers_ns. apply truthy_opt_spec.
  - rewrite build_headers_db. apply truthy_opt_spec.
Qed.

(** C10.  [query] and [query_raw] write the session's bound variables into
    the very dictionary the caller passed: whatever the outcome of the call,
    that dictionary afterwards is its old content overwritten by the bound
    variables, so it holds every bound key with its bound value. *)
Theorem query_writes_into_the_callers_dict q (l : loc) s k v :
  l < length (heap s) →
  bound s !! k = Some v →
  let after_query := snd (Conn.query server py_str q (Some l) s) in
  let after_raw := snd (Conn.query_raw server py_str q (Some l) s) in
  heap after_query !! l = Some (bound s ∪ deref s l)
  ∧ deref after_query l !! k = Some v
  ∧ heap after_raw !! l = Some (bound s ∪ deref s l)
  ∧ deref after_raw l !! k = Some v.
Proof.
  intros Hl Hk after_query after_raw.
  assert (Hq : heap after_query = <[l := bound s ∪ deref s l]> (heap s)).
  { unfold after_query.
    by closed_form server py_str (Conn.Query q (Some l)) s. }
  assert (Hr : heap after_raw = <[l := bound s ∪ deref s l]> (heap s)).
  { unfold after_raw.
    by closed_form server py_str (Conn.QueryRaw q (Some l)) s. }
  unfold deref. rewrite Hq, Hr, list_lookup_insert_eq by done. cbn [default].
  repeat split; by apply lookup_union_Some_l.
Qed.


(** C3 (what the code does at the failing input).  [create("a:b:c")] splits
    at every colon and keeps the first two pieces: the record reference it
    sends has table ["a"] and identifier ["b"], where one split at the first
    colon gives ["a"] and ["b:c"]. *)
Theorem create_drops_what_follows_a_second_colon d s :
  (∃ req,
     sent (snd (Conn.create server py_str (VStr "a:b:c") d s)) = req :: sent s
     ∧ wire_args (data req)
       = [("collection", VRecordID "a" (VStr "b")); ("data", d)])
  ∧ split_once colon "a:b:c" = ["a"; "b:c"].
Proof.
  split; [|done].
  closed_form server py_str (Conn.Create (VStr "a:b:c") d) s.
  by eexists.
Qed.

(** C5 (as the code has it).  A call that raises leaves the session's
    namespace, database and bound variables as they were, and its token too,
    except for [authenticate(token)]: that one stores the token before it
    posts, so after a failed [authenticate] the session token is the token
    that was passed.  A failed [invalidate], [signin] or [signup] leaves the
    token unchanged.  [self.id] is the id of the envelope the failed call
    built, if it built one. *)
Theorem failed_call_leaves_session c s e :
  fst (Conn.run server py_str c s) = Raise e →
  let s' := snd (Conn.run server py_str c s) in
  namespace s' = namespace s
  ∧ database s' = database s
  ∧ bound s' = bound s
  ∧ token s' = match c with
               | Conn.Authenticate t => VStr t
               | _ => token s
               end
  ∧ id s' = if local_only c then id s else uuids s.
Proof.
  destruct (local_only c) eqn:Hloc.
  - destruct c; try discriminate Hloc; cbn [Conn.run].
    + discriminate.
    + unfold Conn.unset, mbind, M_bind, bind, get.
      destruct (bound s !! key); [discriminate|done].
  - destruct (envelope_of_posting c s Hloc) as (m & kw & Henv).
    rewrite (run_eq server py_str c s m kw Henv). cbn [fst snd].
    set (rcv := receive _ _ _). intros Hfail.
    assert (Hb : bound (before c s) = bound s).
    { destruct c; try done; apply bound_prepared. }
    assert (Hc : ∀ x, commit c rcv x = x).
    { intros x. destruct c, rcv as [payload|e']; cbn [commit label finish] in *;
        try done; cbn [mbind result_bind] in Hfail; try discriminate Hfail.
      all: destruct (extract _ _); [discriminate Hfail|done]. }
    rewrite Hc. unfold bound, deref in *.
    cbn [namespace database vars heap token id with_sent stamped with_id
         with_uuids].
    rewrite uuids_before.
    repeat split;
      by destruct c as [| | | | | |q p|q p| | | | | | | | | | | |]; try done;
        destruct p.
Qed.


(** C7.  When the payload the server answers a query with has a [result]
    whose first element holds a [result] [R] (and no [error]), [query] returns
    [R]; [query_raw], answered with the same payload, returns the payload
    itself. *)
Theorem query_unwraps_first_statement q p s req resp payload first rest R :
  sent (snd (Conn.query server py_str q p s)) = req :: sent s →
  server (sent s) req = Some resp →
  status_ok resp →
  content resp = Some payload →
  field payload "error" = None →
  field payload "result" = Some (VList (first :: rest)) →
  field first "result" = Some R →
  fst (Conn.query server py_str q p s) = Ok R
  ∧ fst (Conn.query_raw server py_str q p s) = Ok payload.
Proof.
  intros Hsent Hsrv Hst Hc Herr Hres Hfirst.
  destruct (posting_call_state server py_str (Conn.Query q p) s _ _ eq_refl)
    as (Hs & _). cbn [Conn.run] in Hs. rewrite Hs in Hsent.
  injection Hsent as <-.
  split.
  - closed_form server py_str (Conn.Query q p) s. cbn [fst finish before envelope].
    rewrite Hsrv, (receive_answer _ _ _ _ Hst Hc), Herr. cbn [negb validated].
    cbn [extract]. rewrite Hres. cbn [mbind result_bind subscript0].
    destruct first; try discriminate Hfirst. cbn [field subscript] in *.
    by rewrite Hfirst.
  - by eapply (query_raw_returns_payload server py_str q p s _ _ resp payload eq_refl).
Qed.

(** C8.  When the payload the server answers a call with carries an [error]
    with a [code] and a [message], every method that validates raises a
    [RemoteError] with that code, that message and the method's operation
    label; [query_raw] returns the payload as it is. *)
Theorem remote_error_reaches_the_caller c s req resp payload e code message :
  sent (snd (Conn.run server py_str c s)) = req :: sent s →
  server (sent s) req = Some resp →
  status_ok resp →
  content resp = Some payload →
  field payload "error" = Some e →
  field e "code" = Some code →
  field e "message" = Some message →
  (validated c = true →
   fst (Conn.run server py_str c s)
   = Raise (RemoteError code message (label c)))
  ∧ (∀ q p, c = Conn.QueryRaw q p →
            fst (Conn.run server py_str c s) = Ok payload).
Proof.
  intros Hsent Hsrv Hst Hc He Hcode Hmsg.
  split.
  - intros Hval.
    assert (local_only c = false) as Hloc by by destruct c.
    destruct (envelope_of_posting c s Hloc) as (m & kw & Henv).
    destruct (posting_call_state server py_str c s m kw Henv) as (Hs & _).
    rewrite Hs in Hsent. injection Hsent as <-.
    rewrite (validated_call_raises server py_str c s m kw resp payload e)
      by done.
    by rewrite Hcode, Hmsg.
  - intros q p ->.
    destruct (posting_call_state server py_str (Conn.QueryRaw q p) s _ _ eq_refl)
      as (Hs & _).
    rewrite Hs in Hsent. injection Hsent as <-.
    by eapply (query_raw_returns_payload server py_str q p s _ _ resp payload eq_refl).
Qed.


End Properties.

(** ** The properties at sample sessions *)

(** P3: after [let("x", 1)], [query("RETURN $x", {"x": 2})] sends [x = 1]. *)
Lemma query_bound_variable_overrides_at_session_x :
  ∃ req d,
    sent (snd (Conn.query unreachable str_of "RETURN $x" (Some 1) session_x))
    = req :: sent session_x
    ∧ wire_args (data req) = [("query", VStr "RETURN $x"); ("params", VDict d)]
    ∧ d = bound session_x ∪ arg_dict session_x (Some 1)
    ∧ d !! "x" = Some (VInt 1).
Proof.
  apply (query_bound_variable_overrides unreachable str_of "RETURN $x" (Some 1)
           session_x "x" (VInt 1)).
  - vm_compute. lia.
  - reflexivity.
Defined.

(** The caller's [{"x": 2}] holds [x = 1] after a query that could not reach
    the server. *)
Lemma query_writes_into_the_callers_dict_at_session_x :
  let after_query :=
    snd (Conn.query unreachable str_of "RETURN $x" (Some 1) session_x) in
  let after_raw :=
    snd (Conn.query_raw unreachable str_of "RETURN $x" (Some 1) session_x) in
  heap after_query !! 1 = Some (bound session_x ∪ deref session_x 1)
  ∧ deref after_query 1 !! "x" = Some (VInt 1)
  ∧ heap after_raw !! 1 = Some (bound session_x ∪ deref session_x 1)
  ∧ deref after_raw 1 !! "x" = Some (VInt 1).
Proof.
  apply (query_writes_into_the_callers_dict unreachable str_of "RETURN $x" 1
           session_x "x" (VInt 1)).
  - vm_compute. lia.
  - reflexivity.
Defined.

(** A failed [invalidate] keeps the session. *)
Lemma failed_call_leaves_session_at_invalidate :
  let s' := snd (Conn.run unreachable str_of Conn.Invalidate session_x) in
  namespace s' = namespace session_x
  ∧ database s' = database session_x
  ∧ bound s' = bound session_x
  ∧ token s' = token session_x
  ∧ id s' = uuids session_x.
Proof.
  apply (failed_call_leaves_session unreachable str_of Conn.Invalidate session_x
           RequestException).
  reflexivity.
Defined.

(** P4. *)
Lemma query_unwraps_first_statement_at_one_statement :
  fst (Conn.query (answering one_statement) str_of "SELECT * FROM t" None localhost)
  = Ok rows
  ∧ fst (Conn.query_raw (answering one_statement) str_of "SELECT * FROM t" None
           localhost)
    = Ok one_statement.
Proof.
  eapply (query_unwraps_first_statement (answering one_statement) str_of
            "SELECT * FROM t" None localhost _ _ one_statement _ [] rows).
  - reflexivity.
  - reflexivity.
  - left. vm_compute. reflexivity.
  - reflexivity.
  - reflexivity.
  - reflexivity.
  - reflexivity.
Defined.

(** P5. *)
Lemma remote_error_reaches_the_caller_at_boom :
  (validated (Conn.Signin ∅) = true →
   fst (Conn.run (answering boom) str_of (Conn.Signin ∅) localhost)
   = Raise (RemoteError (VInt 100) (VStr "boom") "signing in"))
  ∧ (∀ q p, Conn.Signin ∅ = Conn.QueryRaw q p →
            fst (Conn.run (answering boom) str_of (Conn.Signin ∅) localhost)
            = Ok boom).
Proof.
  eapply (remote_error_reaches_the_caller (answering boom) str_of (Conn.Signin ∅)
            localhost _ _ boom _ (VInt 100) (VStr "boom")).
  - reflexivity.
  - reflexivity.
  - left. vm_compute. reflexivity.
  - reflexivity.
  - reflexivity.
  - reflexivity.
  - reflexivity.
Defined.


(** [use] on a server that cannot be reached, and on one that answers. *)
Example use_unreachable :
  let r := Conn.use unreachable str_of "ns1" "db1" localhost in
  fst r = Raise RequestException
  ∧ namespace (snd r) = None ∧ database (snd r) = None.
Proof. repeat split. Qed.

Example use_answered :
  let r := Conn.use (answering (VDict ∅)) str_of "ns1" "db1" localhost in
  fst r = Ok VNone
  ∧ namespace (snd r) = Some "ns1" ∧ database (snd r) = Some "db1".
Proof. repeat split. Qed.

(** ** Where the code departs *)


(** C5: an [authenticate] that cannot reach the server has changed the
    token all the same. *)
Lemma failed_authenticate_changes_token :
  fst (Conn.authenticate unreachable str_of "abc" localhost) = Raise RequestException
  ∧ token localhost = VNone
  ∧ token (snd (Conn.authenticate unreachable str_of "abc" localhost)) = VStr "abc".
Proof. repeat split. Qed.

(** C6: after [use("ns1", "")] the session has a namespace and an empty
    database; the next request carries [Surreal-NS] and no [Surreal-DB]. *)
Lemma namespace_header_without_database_header :
  let s := snd (Conn.use (answering (VDict ∅)) str_of "ns1" "" localhost) in
  namespace s = Some "ns1"
  ∧ database s = Some ""
  ∧ ∃ req,
      sent (snd (Conn.info (answering (VDict ∅)) str_of s)) = req :: sent s
      ∧ headers req !! "Surreal-NS" = Some "ns1"
      ∧ headers req !! "Surreal-DB" = None.
Proof.
  cbn zeta. split; [reflexivity|]. split; [reflexivity|].
  eexists. split; [reflexivity|]. split; vm_compute; reflexivity.
Qed.


(** * Further properties of the connection *)

Set Warnings "-clear-no-such-hyp".

(** The exceptions of the transport: the post failed, the status was an
    error code, or the body could not be decoded. *)
Definition is_transport (e : exn) : bool :=
  match e with
  | RequestException | HTTPError _ | DecodeError => true
  | _ => false
  end.

(** The methods that end in [return response["result"]]. *)
Definition returns_result (c : Conn.call) : bool :=
  match c with
  | Conn.Signup _ | Conn.Info | Conn.Create _ _ | Conn.Delete _
  | Conn.Insert _ _ | Conn.InsertRelation _ _ | Conn.Merge _ _
  | Conn.Patch _ _ | Conn.Select _ | Conn.Update _ _ | Conn.Version
  | Conn.Upsert _ _ => true
  | _ => false
  end.

(** The methods with no assignment to [self.token], [self.namespace],
    [self.database] or [self.vars]. *)
Definition reads_session_only (c : Conn.call) : bool :=
  match c with
  | Conn.Authenticate _ | Conn.Invalidate | Conn.Signup _ | Conn.Signin _
  | Conn.Use _ _ | Conn.Let _ _ | Conn.Unset _ => false
  | _ => true
  end.

(** The dictionary of the store a call writes to, if it writes to one that
    is there already. *)
Definition written (c : Conn.call) (s : state) : option loc :=
  match c with
  | Conn.Query _ (Some l) | Conn.QueryRaw _ (Some l) => Some l
  | Conn.Let _ _ | Conn.Unset _ => Some (vars s)
  | _ => None
  end.

(** [self.vars] refers to a dictionary of the store. *)
Definition vars_allocated (s : state) : Prop := vars s < length (heap s).

(** The token [_send] reads when call [c] posts. *)
Definition token_at_post (c : Conn.call) (s : state) : value :=
  match c with
  | Conn.Authenticate t => VStr t
  | _ => token s
  end.

(** The six keys [signin] reads from its argument. *)
Definition signin_keys : list string :=
  ["username"; "password"; "access"; "database"; "namespace"; "variables"].

(** A server that answers every request with an empty body of the given
    status. *)
Definition answering_status (status : Z)
  : list http_request → http_request → option http_response :=
  λ _ _, Some {| status_code := status; content := None |}.

(** ** Helper facts *)

Lemma posted_is_not_local {A} (x : A) (l : list A) : l ≠ x :: l.
Proof. intros H. apply (f_equal length) in H. cbn in H. lia. Qed.

Lemma finish_raise py_str c e : finish py_str c (Raise e) = Raise e.
Proof. by destruct c. Qed.

Lemma before_session c s :
  token (before c s) = token_at_post c s
  ∧ namespace (before c s) = namespace s
  ∧ database (before c s) = database s
  ∧ raw_url (before c s) = raw_url s
  ∧ sent (before c s) = sent s
  ∧ vars (before c s) = vars s.
Proof.
  destruct c as [| | | | | |q p|q p| | | | | | | | | | | |]; try done;
    by destruct p.
Qed.

Section Posting.

Variable server : list http_request → http_request → option http_response.
Variable py_str : value → string.

Lemma local_call_posts_nothing c s :
  local_only c = true → sent (snd (Conn.run server py_str c s)) = sent s.
Proof.
  destruct c; try discriminate; intros _; cbn [Conn.run]; [done|].
  unfold Conn.unset, mbind, M_bind, bind, get. by destruct (bound s !! key).
Qed.

(** The request a call has posted, when it has posted one. *)
Lemma posted_request c s req :
  sent (snd (Conn.run server py_str c s)) = req :: sent s →
  ∃ m kw, envelope c s = Some (m, kw)
          ∧ req = request_for py_str (before c s) m kw.
Proof.
  intros Hsent. destruct (local_only c) eqn:Hloc.
  - rewrite local_call_posts_nothing in Hsent by done.
    by destruct (posted_is_not_local _ _ Hsent).
  - destruct (envelope_of_posting c s Hloc) as (m & kw & Henv).
    destruct (posting_call_state server py_str c s m kw Henv) as (Hs & _).
    rewrite Hs in Hsent. injection Hsent as <-. by eauto.
Qed.

(** The session fields a call's request is built from. *)
Lemma posted_headers c s m kw :
  headers (request_for py_str (before c s) m kw)
  = Conn.build_headers py_str
      (with_token (token_at_post c s) s).
Proof.
  unfold request_for, request. cbn [headers].
  destruct (before_session c s) as (Ht & Hn & Hd & _).
  unfold Conn.build_headers.
  cbn [token namespace database stamped with_id with_uuids with_token].
  by rewrite Ht, Hn, Hd.
Qed.

End Posting.

(** ** The transport *)

Section Transport.

Variable server : list http_request → http_request → option http_response.
Variable py_str : value → string.

(** X1.  Every request goes to the [/rpc] path of the connection's url with
    the two CBOR headers; it carries [Authorization: Bearer <token>] exactly
    when the session token is truthy (so not for [None] nor for the empty
    string), and no header besides these three and the namespace and
    database ones. *)
Theorem request_url_and_headers message operation bypass s :
  ∃ req,
    sent (snd (Conn._send server py_str message operation bypass s))
    = req :: sent s
    ∧ url req = raw_url s ++ "/rpc"
    ∧ headers req !! "Accept" = Some "application/cbor"
    ∧ headers req !! "Content-Type" = Some "application/cbor"
    ∧ headers req !! "Authorization"
      = (if truthy (token s) then Some ("Bearer " ++ py_str (token s)) else None)
    ∧ dom (headers req)
      ⊆ ({[ "Accept"; "Content-Type"; "Authorization"; "Surreal-NS";
            "Surreal-DB" ]} : gset string).
Proof.
  rewrite send_run. eexists. split; [done|]. split; [done|].
  unfold request. cbn [headers].
  split; [|split; [|split; [apply build_headers_authorization|]]].
  - unfold Conn.build_headers.
    destruct (truthy (token s)), (truthy_opt (namespace s)),
      (truthy_opt (database s)); by simplify_map_eq.
  - unfold Conn.build_headers.
    destruct (truthy (token s)), (truthy_opt (namespace s)),
      (truthy_opt (database s)); by simplify_map_eq.
  - unfold Conn.build_headers.
    destruct (truthy (token s)), (truthy_opt (namespace s)),
      (truthy_opt (database s));
      rewrite ?dom_insert_L, dom_singleton_L; set_solver.
Qed.

(** X2.  Whatever the method, [query_raw] included, a failure of the
    transport reaches the caller as it is: no answer raises the request
    exception, a status from 400 to 599 raises the HTTP error of that status,
    and a body that does not decode raises the decoding error. *)
Theorem transport_failure_surfaces c s req :
  sent (snd (Conn.run server py_str c s)) = req :: sent s →
  (server (sent s) req = None →
   fst (Conn.run server py_str c s) = Raise RequestException)
  ∧ (∀ resp, server (sent s) req = Some resp →
             (400 ≤ status_code resp < 600)%Z →
             fst (Conn.run server py_str c s)
             = Raise (HTTPError (status_code resp)))
  ∧ (∀ resp, server (sent s) req = Some resp →
             status_ok resp →
             content resp = None →
             fst (Conn.run server py_str c s) = Raise DecodeError).
Proof.
  intros (m & kw & Henv & ->)%posted_request.
  rewrite (run_eq server py_str c s m kw Henv). cbn [fst].
  repeat split.
  - intros ->. apply finish_raise.
  - intros resp -> [Hlo Hhi]. unfold receive.
    destruct (Z.leb_spec 400 (status_code resp)); [|lia].
    destruct (Z.ltb_spec (status_code resp) 600); [|lia].
    apply finish_raise.
  - intros resp -> Hst Hc. unfold receive, status_ok in *. rewrite Hc.
    destruct (Z.leb_spec 400 (status_code resp)),
      (Z.ltb_spec (status_code resp) 600); cbn [andb];
      first [lia | apply finish_raise].
Qed.

(** X3.  [query_raw] raises nothing but the exceptions of the transport:
    whatever the decoded payload holds, it is returned. *)
Theorem query_raw_raises_only_transport_errors q p s e :
  fst (Conn.query_raw server py_str q p s) = Raise e →
  is_transport e = true.
Proof.
  closed_form server py_str (Conn.QueryRaw q p) s. cbn [fst finish].
  unfold receive. cbn [validated negb].
  destruct (server _ _) as [resp|]; [|by intros [= <-]].
  destruct (_ && _); [by intros [= <-]|].
  destruct (content resp); [discriminate|by intros [= <-]].
Qed.

(** X4.  From the same state [query] and [query_raw] post the same request
    and leave the same state behind; they differ in what they return only. *)
Theorem query_and_query_raw_leave_the_same_state q p s :
  snd (Conn.query server py_str q p s)
  = snd (Conn.query_raw server py_str q p s).
Proof.
  closed_form server py_str (Conn.Query q p) s.
  by closed_form server py_str (Conn.QueryRaw q p) s.
Qed.

(** X5.  A call that returns was answered: the server gave its request a
    response whose status is no error code and whose body decoded. *)
Theorem returned_call_was_answered c s req v :
  sent (snd (Conn.run server py_str c s)) = req :: sent s →
  fst (Conn.run server py_str c s) = Ok v →
  ∃ resp payload,
    server (sent s) req = Some resp
    ∧ status_ok resp
    ∧ content resp = Some payload.
Proof.
  intros (m & kw & Henv & ->)%posted_request.
  rewrite (run_eq server py_str c s m kw Henv). cbn [fst].
  unfold receive.
  destruct (server _ _) as [resp|]; [|by rewrite finish_raise].
  destruct (Z.leb_spec 400 (status_code resp)),
    (Z.ltb_spec (status_code resp) 600); cbn [andb];
    try (by rewrite finish_raise).
  all: destruct (content resp) as [payload|] eqn:Hc;
    [|by rewrite finish_raise].
  all: intros _; exists resp, payload; unfold status_ok;
    split; [done|split; [lia|done]].
Qed.

End Transport.

(** ** Results *)

Lemma receive_clean operation bypass resp payload :
  status_ok resp →
  content resp = Some payload →
  field payload "error" = None →
  receive operation bypass (Some resp) = Ok payload.
Proof.
  intros Hst Hc He. rewrite (receive_answer _ _ _ _ Hst Hc), He.
  by destruct bypass.
Qed.

Section Results.

Variable server : list http_request → http_request → option http_response.
Variable py_str : value → string.

(** The result of [_send] in a call whose request was answered with a
    payload that has no error. *)
Lemma answered_call c s req resp payload :
  sent (snd (Conn.run server py_str c s)) = req :: sent s →
  server (sent s) req = Some resp →
  status_ok resp →
  content resp = Some payload →
  field payload "error" = None →
  ∃ m kw,
    envelope c s = Some (m, kw)
    ∧ req = request_for py_str (before c s) m kw
    ∧ Conn.run server py_str c s
      = (finish py_str c (Ok payload),
         commit c (Ok payload)
           (with_sent (req :: sent s) (stamped (before c s)))).
Proof.
  intros Hsent Hsrv Hst Hc He.
  destruct (posted_request server py_str c s req Hsent) as (m & kw & Henv & ->).
  exists m, kw. split; [done|]. split; [done|].
  rewrite (run_eq server py_str c s m kw Henv).
  by rewrite Hsrv, (receive_clean _ _ _ _ Hst Hc He).
Qed.

(** X6.  The methods that end in [return response["result"]] return the
    [result] of the payload as it is, whatever value it is. *)
Theorem result_is_returned c s req resp payload r :
  returns_result c = true →
  sent (snd (Conn.run server py_str c s)) = req :: sent s →
  server (sent s) req = Some resp →
  status_ok resp →
  content resp = Some payload →
  field payload "error" = None →
  field payload "result" = Some r →
  fst (Conn.run server py_str c s) = Ok r.
Proof.
  intros Hc Hsent Hsrv Hst Hcont He Hr.
  destruct (answered_call c s req resp payload) as (m & kw & _ & _ & ->);
    try done.
  destruct c; try discriminate Hc; cbn [fst finish label extract];
    by rewrite Hr.
Qed.

(** X7.  [query] answered with an empty list of statement results raises
    [IndexError]: [response["result"][0]] has nothing to index. *)
Theorem query_without_statements_raises q p s req resp payload :
  sent (snd (Conn.query server py_str q p s)) = req :: sent s →
  server (sent s) req = Some resp →
  status_ok resp →
  content resp = Some payload →
  field payload "error" = None →
  field payload "result" = Some (VList []) →
  fst (Conn.query server py_str q p s) = Raise IndexError.
Proof.
  intros Hsent Hsrv Hst Hcont He Hr.
  destruct (answered_call (Conn.Query q p) s req resp payload)
    as (m & kw & _ & _ & Hrun); try done.
  cbn [Conn.run] in Hrun. rewrite Hrun. cbn [fst finish extract].
  by rewrite Hr.
Qed.

(** X8.  [query] answered with a first statement that is a dict without
    [result] raises [KeyError] for that key. *)
Theorem query_statement_without_result_raises q p s req resp payload d rest :
  sent (snd (Conn.query server py_str q p s)) = req :: sent s →
  server (sent s) req = Some resp →
  status_ok resp →
  content resp = Some payload →
  field payload "error" = None →
  field payload "result" = Some (VList (VDict d :: rest)) →
  d !! "result" = None →
  fst (Conn.query server py_str q p s) = Raise (KeyError "result").
Proof.
  intros Hsent Hsrv Hst Hcont He Hr Hd.
  destruct (answered_call (Conn.Query q p) s req resp payload)
    as (m & kw & _ & _ & Hrun); try done.
  cbn [Conn.run] in Hrun. rewrite Hrun. cbn [fst finish extract].
  rewrite Hr. cbn [mbind result_bind subscript0 subscript]. by rewrite Hd.
Qed.

(** X9.  [signin] and [signup] store the [result] of the payload in
    [self.token] as it is; [signup] returns it and [signin] returns its
    [str]. *)
Theorem sign_stores_the_result_as_token c s req resp payload tok :
  (∃ v, c = Conn.Signin v ∨ c = Conn.Signup v) →
  sent (snd (Conn.run server py_str c s)) = req :: sent s →
  server (sent s) req = Some resp →
  status_ok resp →
  content resp = Some payload →
  field payload "error" = None →
  field payload "result" = Some tok →
  token (snd (Conn.run server py_str c s)) = tok
  ∧ fst (Conn.run server py_str c s)
    = Ok (match c with
          | Conn.Signin _ => VStr (py_str tok)
          | _ => tok
          end).
Proof.
  intros Hc Hsent Hsrv Hst Hcont He Hr.
  destruct (answered_call c s req resp payload) as (m & kw & _ & _ & ->);
    try done.
  destruct Hc as [v [-> | ->]]; cbn [fst snd finish commit label extract];
    by rewrite Hr.
Qed.

End Results.

(** ** The session and the store *)

Lemma let_run k v s :
  Conn.let_ k v s
  = (Ok VNone, with_heap (<[vars s := <[k := v]> (bound s)]> (heap s)) s).
Proof. reflexivity. Qed.

Lemma unset_run k s :
  Conn.unset k s
  = match bound s !! k with
    | Some _ =>
        (Ok VNone, with_heap (<[vars s := delete k (bound s)]> (heap s)) s)
    | None => (Raise (KeyError k), s)
    end.
Proof.
  unfold Conn.unset, mbind, M_bind, bind, get. by destruct (bound s !! k).
Qed.

Lemma bound_written s d :
  vars_allocated s →
  bound (with_heap (<[vars s := d]> (heap s)) s) = d.
Proof.
  intros Hv. unfold bound, deref. cbn [heap vars with_heap].
  by rewrite list_lookup_insert_eq.
Qed.

Section Session.

Variable server : list http_request → http_request → option http_response.
Variable py_str : value → string.

(** X10.  The methods without an assignment to the token, the namespace, the
    database or the bound variables leave all four as they were, whether they
    return or raise: [query] writes the bound variables into the caller's
    dictionary and not the other way round. *)
Theorem reading_calls_keep_the_session c s :
  reads_session_only c = true →
  let s' := snd (Conn.run server py_str c s) in
  token s' = token s
  ∧ namespace s' = namespace s
  ∧ database s' = database s
  ∧ bound s' = bound s
  ∧ vars s' = vars s.
Proof.
  intros Hc. cbn zeta.
  assert (local_only c = false) as Hloc by by destruct c.
  destruct (envelope_of_posting c s Hloc) as (m & kw & Henv).
  rewrite (run_eq server py_str c s m kw Henv). cbn [snd].
  set (rcv := receive _ _ _).
  assert (Hcom : ∀ x, commit c rcv x = x).
  { intros x. by destruct c, rcv. }
  rewrite Hcom.
  assert (Hb : bound (before c s) = bound s).
  { destruct c; try done; apply bound_prepared. }
  destruct (before_session c s) as (Ht & Hn & Hd & _ & _ & Hv).
  unfold bound, deref in *.
  cbn [token namespace database vars heap with_sent stamped with_id with_uuids].
  rewrite Ht, Hn, Hd. repeat split; try done. by destruct c.
Qed.

(** X11.  A call writes to at most one dictionary that was in the store:
    [query] and [query_raw] to the one the caller passed, [let] and [unset]
    to the one behind [self.vars].  Every other dictionary of the store is
    as it was. *)
Theorem calls_write_one_dictionary c s (l : loc) :
  l < length (heap s) →
  written c s ≠ Some l →
  heap (snd (Conn.run server py_str c s)) !! l = heap s !! l.
Proof.
  intros Hl Hw. destruct (local_only c) eqn:Hloc.
  - destruct c; try discriminate Hloc; cbn [Conn.run written] in *.
    + rewrite let_run. cbn [snd heap with_heap].
      apply list_lookup_insert_ne. congruence.
    + rewrite unset_run. destruct (bound s !! key); [|done].
      cbn [snd heap with_heap]. apply list_lookup_insert_ne. congruence.
  - destruct (envelope_of_posting c s Hloc) as (m & kw & Henv).
    rewrite (run_eq server py_str c s m kw Henv). cbn [snd].
    destruct (commit_frame c
      (receive (label c) (negb (validated c))
         (server (sent s) (request_for py_str (before c s) m kw)))
      (with_sent (request_for py_str (before c s) m kw :: sent s)
         (stamped (before c s)))) as (_ & _ & _ & -> & _).
    cbn [heap with_sent stamped with_id with_uuids].
    destruct c as [| | | | | |q p|q p| | | | | | | | | | | |]; try done;
      destruct p as [l'|]; cbn [before prepared heap with_heap written] in *;
      first [ apply list_lookup_insert_ne; congruence
            | by apply lookup_app_l ].
Qed.

(** X12.  [unset] returns exactly when the name is bound; for a name that
    is not bound it raises [KeyError] for that name and changes nothing. *)
Theorem unset_of_unbound_name_raises k s :
  (fst (Conn.unset k s) = Ok VNone ↔ is_Some (bound s !! k))
  ∧ (bound s !! k = None → Conn.unset k s = (Raise (KeyError k), s)).
Proof.
  rewrite unset_run. destruct (bound s !! k) as [v|]; cbn [fst].
  - split; [|done]. split; [by eauto|done].
  - split; [|done]. split; [done|by intros [? ?]].
Qed.

(** X13.  [let] binds and [unset] unbinds: after [let(k, v)] the bound
    variables are the old ones with [k] set to [v], and [unset(k)] then
    returns and leaves the old ones without [k], so a name that was not bound
    before is not bound afterwards and every other name is as it was. *)
Theorem let_then_unset k v s :
  vars_allocated s →
  let s1 := snd (Conn.let_ k v s) in
  bound s1 = <[k := v]> (bound s)
  ∧ fst (Conn.unset k s1) = Ok VNone
  ∧ bound (snd (Conn.unset k s1)) = delete k (bound s).
Proof.
  intros Hv. cbn zeta. rewrite let_run. cbn [snd].
  assert (Hb : bound (with_heap (<[vars s := <[k := v]> (bound s)]> (heap s)) s)
               = <[k := v]> (bound s)) by by apply bound_written.
  split; [done|]. rewrite unset_run, Hb, lookup_insert_eq. cbn [fst snd].
  split; [done|].
  unfold bound at 1, deref. cbn [heap vars with_heap].
  rewrite list_lookup_insert_eq
    by (by rewrite length_insert).
  cbn [default]. apply delete_insert_eq.
Qed.

End Session.

(** ** One call after another *)

Section Sequences.

Variable server : list http_request → http_request → option http_response.
Variable py_str : value → string.

(** The session headers of the request a posting call sends. *)
Lemma next_request_headers c s :
  local_only c = false →
  ∃ req,
    sent (snd (Conn.run server py_str c s)) = req :: sent s
    ∧ headers req !! "Authorization"
      = (if truthy (token_at_post c s)
         then Some ("Bearer " ++ py_str (token_at_post c s)) else None)
    ∧ headers req !! "Surreal-NS"
      = (if truthy_opt (namespace s) then namespace s else None)
    ∧ headers req !! "Surreal-DB"
      = (if truthy_opt (database s) then database s else None).
Proof.
  intros Hloc. destruct (envelope_of_posting c s Hloc) as (m & kw & Henv).
  destruct (posting_call_state server py_str c s m kw Henv) as (Hs & _).
  eexists. split; [exact Hs|]. rewrite posted_headers.
  by rewrite build_headers_authorization, build_headers_ns, build_headers_db.
Qed.

(** X14.  After a [signin] or [signup] that returned, every later request
    carries the token the server gave as bearer credential (if that token is
    truthy), until the token is replaced: here, the request of the call that
    follows, for every method that posts except [authenticate], which sends
    its own token. *)
Theorem signed_in_requests_bear_the_token c s req resp payload tok next :
  (∃ v, c = Conn.Signin v ∨ c = Conn.Signup v) →
  sent (snd (Conn.run server py_str c s)) = req :: sent s →
  server (sent s) req = Some resp →
  status_ok resp →
  content resp = Some payload →
  field payload "error" = None →
  field payload "result" = Some tok →
  truthy tok = true →
  local_only next = false →
  (∀ t, next ≠ Conn.Authenticate t) →
  let s1 := snd (Conn.run server py_str c s) in
  ∃ req1,
    sent (snd (Conn.run server py_str next s1)) = req1 :: sent s1
    ∧ headers req1 !! "Authorization" = Some ("Bearer " ++ py_str tok).
Proof.
  intros Hc Hsent Hsrv Hst Hcont He Hr Htok Hloc Hnext s1.
  assert (Ht : token s1 = tok).
  { unfold s1.
    destruct (answered_call server py_str c s req resp payload)
      as (m & kw & _ & _ & ->); try done.
    destruct Hc as [v [-> | ->]]; cbn [snd commit label extract];
      by rewrite Hr. }
  destruct (next_request_headers next s1 Hloc) as (req1 & Hs1 & Ha & _).
  exists req1. split; [done|]. rewrite Ha.
  assert (token_at_post next s1 = tok) as ->.
  { destruct next as [t0| | | | | | | | | | | | | | | | | | |]; try done.
    by destruct (Hnext t0). }
  by rewrite Htok.
Qed.

(** X15.  After an [invalidate] that returned the session has no token, and
    the request of the call that follows carries no [Authorization] header
    (for every method that posts except [authenticate]). *)
Theorem invalidated_requests_bear_no_token s v next :
  fst (Conn.invalidate server py_str s) = Ok v →
  local_only next = false →
  (∀ t, next ≠ Conn.Authenticate t) →
  let s1 := snd (Conn.invalidate server py_str s) in
  token s1 = VNone
  ∧ ∃ req1,
      sent (snd (Conn.run server py_str next s1)) = req1 :: sent s1
      ∧ headers req1 !! "Authorization" = None.
Proof.
  intros Hok Hloc Hnext s1.
  assert (Ht : token s1 = VNone).
  { unfold s1. revert Hok.
    closed_form server py_str Conn.Invalidate s. cbn [fst snd finish commit].
    by destruct (receive _ _ _). }
  split; [done|].
  destruct (next_request_headers next s1 Hloc) as (req1 & Hs1 & Ha & _).
  exists req1. split; [done|]. rewrite Ha.
  assert (token_at_post next s1 = VNone) as ->; [|done].
  destruct next as [t0| | | | | | | | | | | | | | | | | | |]; try done.
  by destruct (Hnext t0).
Qed.

(** X16.  After a [use(ns, db)] that returned, with [ns] and [db] not empty,
    the request of the call that follows carries both as [Surreal-NS] and
    [Surreal-DB]. *)
Theorem used_requests_carry_namespace_and_database ns db s v next :
  fst (Conn.use server py_str ns db s) = Ok v →
  ns ≠ "" →
  db ≠ "" →
  local_only next = false →
  let s1 := snd (Conn.use server py_str ns db s) in
  ∃ req1,
    sent (snd (Conn.run server py_str next s1)) = req1 :: sent s1
    ∧ headers req1 !! "Surreal-NS" = Some ns
    ∧ headers req1 !! "Surreal-DB" = Some db.
Proof.
  intros Hok Hns Hdb Hloc s1.
  assert (Hs : namespace s1 = Some ns ∧ database s1 = Some db).
  { unfold s1. revert Hok.
    closed_form server py_str (Conn.Use ns db) s. cbn [fst snd finish commit].
    by destruct (receive _ _ _). }
  destruct Hs as [Hn Hd].
  destruct (next_request_headers next s1 Hloc) as (req1 & Hs1 & _ & Hhn & Hhd).
  exists req1. split; [done|]. rewrite Hhn, Hhd, Hn, Hd. cbn [truthy_opt].
  by destruct (String.eqb_spec ns ""), (String.eqb_spec db "").
Qed.

(** X17.  [set_token] stores the token without posting anything and without
    touching [self.id]; the request of the call that follows carries it as
    bearer credential, unless it is the empty string. *)
Theorem set_token_then_request_bears_it t s next :
  t ≠ "" →
  local_only next = false →
  (∀ t', next ≠ Conn.Authenticate t') →
  let s1 := snd (Conn.set_token t s) in
  sent s1 = sent s
  ∧ id s1 = id s
  ∧ ∃ req1,
      sent (snd (Conn.run server py_str next s1)) = req1 :: sent s1
      ∧ headers req1 !! "Authorization"
        = Some ("Bearer " ++ py_str (VStr t)).
Proof.
  intros Ht Hloc Hnext s1. split; [done|]. split; [done|].
  destruct (next_request_headers next s1 Hloc) as (req1 & Hs1 & Ha & _).
  exists req1. split; [done|]. rewrite Ha.
  assert (token_at_post next s1 = VStr t) as ->.
  { destruct next as [t0| | | | | | | | | | | | | | | | | | |]; try done.
    by destruct (Hnext t0). }
  cbn [truthy]. by destruct (String.eqb_spec t "").
Qed.

End Sequences.

(** ** Bound variables in queries *)

Section Variables.

Variable server : list http_request → http_request → option http_response.
Variable py_str : value → string.

(** The parameters of the request a query posts. *)
Lemma query_params q p s :
  valid_arg s p →
  ∃ req,
    sent (snd (Conn.query server py_str q p s)) = req :: sent s
    ∧ wire_args (data req)
      = [("query", VStr q); ("params", VDict (bound s ∪ arg_dict s p))].
Proof.
  intros Hv. closed_form server py_str (Conn.Query q p) s. cbn [snd].
  eexists. split; [done|]. rewrite <- (deref_prepared s p Hv). reflexivity.
Qed.

(** X18.  After [let(k, v)] a query sends [k] as [v], whatever the mapping
    the caller passes holds for [k]. *)
Theorem let_then_query_sends_the_value k v q p s :
  vars_allocated s →
  valid_arg s p →
  let s1 := snd (Conn.let_ k v s) in
  ∃ req d,
    sent (snd (Conn.query server py_str q p s1)) = req :: sent s1
    ∧ wire_args (data req) = [("query", VStr q); ("params", VDict d)]
    ∧ d !! k = Some v.
Proof.
  intros Hv Hp s1.
  assert (Hb : bound s1 = <[k := v]> (bound s)).
  { unfold s1. rewrite let_run. by apply bound_written. }
  assert (Hp1 : valid_arg s1 p).
  { destruct p; [|done]. unfold s1. rewrite let_run.
    cbn [valid_arg snd heap with_heap] in *. by rewrite length_insert. }
  destruct (query_params q p s1 Hp1) as (req & Hs & Ha).
  exists req, (bound s1 ∪ arg_dict s1 p). split; [done|]. split; [done|].
  apply lookup_union_Some_l. rewrite Hb. apply lookup_insert_eq.
Qed.

(** X19.  After [unset(k)] has returned, a query sends for [k] what the
    caller's own mapping holds for it, and nothing when the caller passes no
    mapping or one without [k]. *)
Theorem unset_then_query_sends_the_callers_value k q p s :
  vars_allocated s →
  valid_arg s p →
  p ≠ Some (vars s) →
  is_Some (bound s !! k) →
  let s1 := snd (Conn.unset k s) in
  ∃ req d,
    sent (snd (Conn.query server py_str q p s1)) = req :: sent s1
    ∧ wire_args (data req) = [("query", VStr q); ("params", VDict d)]
    ∧ d !! k = arg_dict s p !! k.
Proof.
  intros Hv Hp Hne [x Hk] s1.
  assert (Hs1 : s1 = with_heap (<[vars s := delete k (bound s)]> (heap s)) s).
  { unfold s1. by rewrite unset_run, Hk. }
  assert (Hb : bound s1 = delete k (bound s)).
  { rewrite Hs1. by apply bound_written. }
  assert (Hp1 : valid_arg s1 p).
  { destruct p; [|done]. rewrite Hs1.
    cbn [valid_arg heap with_heap] in *. by rewrite length_insert. }
  assert (Ha : arg_dict s1 p = arg_dict s p).
  { destruct p as [l|]; [|done]. rewrite Hs1. unfold arg_dict, deref.
    cbn [heap with_heap]. rewrite list_lookup_insert_ne; [done|congruence]. }
  destruct (query_params q p s1 Hp1) as (req & Hs & Hw).
  exists req, (bound s1 ∪ arg_dict s1 p). split; [done|]. split; [done|].
  rewrite lookup_union_r, Ha; [done|]. rewrite Hb. apply lookup_delete_eq.
Qed.

End Variables.

(** ** What [create] makes of a string *)

(** [sep.join(l)]. *)
Fixpoint join (sep : ascii) (l : list string) : string :=
  match l with
  | [] => ""
  | x :: l' =>
      match l' with
      | [] => x
      | _ :: _ => x ++ String sep (join sep l')
      end
  end.

Lemma split_cons sep t : ∃ h tl, split sep t = h :: tl.
Proof.
  induction t as [|c t (h & tl & IH)]; cbn [split]; [by eauto|].
  destruct (Ascii.eqb c sep); [by eauto|]. rewrite IH. by eauto.
Qed.

Lemma join_split sep t : join sep (split sep t) = t.
Proof.
  induction t as [|c t IH]; cbn [split]; [done|].
  destruct (split_cons sep t) as (h & tl & Hs). rewrite Hs in *.
  destruct (Ascii.eqb_spec c sep) as [->|Hne].
  - change (join sep ("" :: h :: tl))
      with ("" ++ String sep (join sep (h :: tl))).
    by rewrite IH.
  - destruct tl as [|h' tl]; cbn [join] in *; by rewrite <- IH.
Qed.

Lemma split_pieces_clean sep t :
  Forall (λ x, contains sep x = false) (split sep t).
Proof.
  induction t as [|c t IH]; cbn [split].
  - by constructor.
  - destruct (Ascii.eqb c sep) eqn:Hc; [by constructor|].
    destruct (split sep t) as [|h tl]; [by constructor; [cbn; rewrite Hc|]|].
    apply Forall_cons in IH as [Hh Htl]. constructor; [|done].
    cbn [contains]. by rewrite Hc.
Qed.

Section Create.

Variable server : list http_request → http_request → option http_response.
Variable py_str : value → string.

(** X20.  For a string with a colon [create] sends a record reference whose
    table is the text before the first colon and whose identifier is the text
    between the first colon and the second (or the end); neither holds a
    colon, and what follows a second colon is not sent. *)
Theorem create_reference_pieces t d s :
  contains colon t = true →
  ∃ a b rest req,
    split colon t = a :: b :: rest
    ∧ t = a ++ String colon (join colon (b :: rest))
    ∧ contains colon a = false
    ∧ contains colon b = false
    ∧ sent (snd (Conn.create server py_str (VStr t) d s)) = req :: sent s
    ∧ wire_args (data req)
      = [("collection", VRecordID a (VStr b)); ("data", d)].
Proof.
  intros Hc. destruct (split_two _ _ Hc) as (a & b & rest & Hs).
  pose proof (split_pieces_clean colon t) as Hclean. rewrite Hs in Hclean.
  apply Forall_cons in Hclean as [Ha Hclean].
  apply Forall_cons in Hclean as [Hb _].
  exists a, b, rest. eexists. split; [done|].
  split; [by rewrite <- (join_split colon t), Hs|].
  split; [done|]. split; [done|].
  closed_form server py_str (Conn.Create (VStr t) d) s. cbn [snd].
  split; [done|]. unfold request_for, request, Conn.descriptor.
  cbn [data wire_args kwargs fmap list_fmap normalized].
  by rewrite Hc, Hs.
Qed.


(** X22.  [signin] reads six keys of its argument and nothing else: two
    arguments that agree on them give the same request, the same result and
    the same state. *)
Theorem signin_reads_six_keys (v1 v2 : gmap string value) s :
  Forall (λ k, v1 !! k = v2 !! k) signin_keys →
  Conn.signin server py_str v1 s = Conn.signin server py_str v2 s.
Proof.
  intros Hk. unfold Conn.signin, dict_get.
  repeat (apply Forall_cons in Hk as [-> Hk]). done.
Qed.

(** X23.  The first request of a new connection carries the two CBOR headers
    and no other, whatever the method (but for [authenticate], which sends
    its token), and goes to the [/rpc] path of its url. *)
Theorem new_connection_sends_fixed_headers address c :
  local_only c = false →
  (∀ t, c ≠ Conn.Authenticate t) →
  ∃ req,
    sent (snd (Conn.run server py_str c (Conn.init address))) = [req]
    ∧ url req = address ++ "/rpc"
    ∧ headers req
      = {[ "Accept" := "application/cbor"; "Content-Type" := "application/cbor" ]}.
Proof.
  intros Hloc Hc. destruct (envelope_of_posting c (Conn.init address) Hloc)
    as (m & kw & Henv).
  destruct (posting_call_state server py_str c (Conn.init address) m kw Henv)
    as (Hs & _).
  eexists. split; [exact Hs|]. split.
  - unfold request_for, request. cbn [url stamped with_id with_uuids raw_url].
    by destruct (before_session c (Conn.init address)) as (_ & _ & _ & -> & _).
  - rewrite posted_headers.
    assert (token_at_post c (Conn.init address) = VNone) as ->; [|done].
    destruct c as [t0| | | | | | | | | | | | | | | | | | |]; try done.
    by destruct (Hc t0).
Qed.

End Create.

(** ** The further properties at sample sessions *)

(** The payload of a [signin] that succeeded: [{result: "abc"}]. *)
Definition token_payload : value := VDict {[ "result" := VStr "abc" ]}.

(** A payload whose list of statement results is empty. *)
Definition no_statements : value := VDict {[ "result" := VList [] ]}.

(** A payload whose first statement has a status and no result. *)
Definition statement_without_result : value :=
  VDict {[ "result" := VList [VDict {[ "status" := VStr "OK" ]}] ]}.

Lemma transport_failure_surfaces_at_503 :
  fst (Conn.run (answering_status 503) str_of (Conn.QueryRaw "INFO FOR DB" None)
         localhost)
  = Raise (HTTPError 503).
Proof.
  destruct (transport_failure_surfaces (answering_status 503) str_of
              (Conn.QueryRaw "INFO FOR DB" None) localhost _ eq_refl)
    as (_ & H & _).
  apply (H {| status_code := 503; content := None |} eq_refl). cbn. lia.
Defined.

Lemma query_raw_raises_only_transport_errors_at_unreachable :
  is_transport RequestException = true.
Proof.
  apply (query_raw_raises_only_transport_errors unreachable str_of
           "INFO FOR DB" None localhost RequestException).
  reflexivity.
Defined.

Lemma returned_call_was_answered_at_one_statement :
  ∃ resp payload,
    answering one_statement (sent localhost)
      (request_for str_of (before (Conn.Query "SELECT * FROM t" None) localhost)
         QUERY [("query", Imm (VStr "SELECT * FROM t")); ("params", Ref 1)])
    = Some resp
    ∧ status_ok resp
    ∧ content resp = Some payload.
Proof.
  apply (returned_call_was_answered (answering one_statement) str_of
           (Conn.Query "SELECT * FROM t" None) localhost _ rows).
  - reflexivity.
  - reflexivity.
Defined.

Lemma result_is_returned_at_select :
  fst (Conn.run (answering token_payload) str_of
         (Conn.Select (VTable "person")) localhost)
  = Ok (VStr "abc").
Proof.
  eapply (result_is_returned (answering token_payload) str_of
            (Conn.Select (VTable "person")) localhost _ _ token_payload).
  - reflexivity.
  - reflexivity.
  - reflexivity.
  - left. vm_compute. reflexivity.
  - reflexivity.
  - reflexivity.
  - reflexivity.
Defined.

Lemma query_without_statements_raises_at_no_statements :
  fst (Conn.query (answering no_statements) str_of "" None localhost)
  = Raise IndexError.
Proof.
  eapply (query_without_statements_raises (answering no_statements) str_of ""
            None localhost _ _ no_statements).
  - reflexivity.
  - reflexivity.
  - left. vm_compute. reflexivity.
  - reflexivity.
  - reflexivity.
  - reflexivity.
Defined.

Lemma query_statement_without_result_raises_at_status_only :
  fst (Conn.query (answering statement_without_result) str_of "USE NS a" None
         localhost)
  = Raise (KeyError "result").
Proof.
  eapply (query_statement_without_result_raises
            (answering statement_without_result) str_of "USE NS a" None
            localhost _ _ statement_without_result _ []).
  - reflexivity.
  - reflexivity.
  - left. vm_compute. reflexivity.
  - reflexivity.
  - reflexivity.
  - reflexivity.
  - reflexivity.
Defined.

Lemma sign_stores_the_result_as_token_at_signin :
  token (snd (Conn.run (answering token_payload) str_of (Conn.Signin ∅) localhost))
  = VStr "abc"
  ∧ fst (Conn.run (answering token_payload) str_of (Conn.Signin ∅) localhost)
    = Ok (VStr (str_of (VStr "abc"))).
Proof.
  eapply (sign_stores_the_result_as_token (answering token_payload) str_of
            (Conn.Signin ∅) localhost _ _ token_payload (VStr "abc")).
  - exists ∅. by left.
  - reflexivity.
  - reflexivity.
  - left. vm_compute. reflexivity.
  - reflexivity.
  - reflexivity.
  - reflexivity.
Defined.

Lemma reading_calls_keep_the_session_at_query :
  let s' := snd (Conn.run unreachable str_of (Conn.Query "RETURN $x" (Some 1))
                   session_x) in
  token s' = token session_x
  ∧ namespace s' = namespace session_x
  ∧ database s' = database session_x
  ∧ bound s' = bound session_x
  ∧ vars s' = vars session_x.
Proof.
  apply (reading_calls_keep_the_session unreachable str_of
           (Conn.Query "RETURN $x" (Some 1)) session_x).
  reflexivity.
Defined.

Lemma calls_write_one_dictionary_at_session_x :
  heap (snd (Conn.run unreachable str_of (Conn.Query "RETURN $x" (Some 1))
               session_x)) !! 0
  = heap session_x !! 0.
Proof.
  apply (calls_write_one_dictionary unreachable str_of
           (Conn.Query "RETURN $x" (Some 1)) session_x 0).
  - vm_compute. lia.
  - discriminate.
Defined.

Lemma unset_of_unbound_name_raises_at_new_connection :
  Conn.unset "x" localhost = (Raise (KeyError "x"), localhost).
Proof.
  destruct (unset_of_unbound_name_raises "x" localhost) as [_ H].
  apply H. reflexivity.
Defined.

Lemma let_then_unset_at_new_connection :
  let s1 := snd (Conn.let_ "x" (VInt 1) localhost) in
  bound s1 = <["x" := VInt 1]> (bound localhost)
  ∧ fst (Conn.unset "x" s1) = Ok VNone
  ∧ bound (snd (Conn.unset "x" s1)) = delete "x" (bound localhost).
Proof.
  apply (let_then_unset "x" (VInt 1) localhost). vm_compute. lia.
Defined.

Lemma signed_in_requests_bear_the_token_at_info :
  let s1 := snd (Conn.run (answering token_payload) str_of (Conn.Signin ∅)
                   localhost) in
  ∃ req1,
    sent (snd (Conn.run (answering token_payload) str_of Conn.Info s1))
    = req1 :: sent s1
    ∧ headers req1 !! "Authorization" = Some ("Bearer " ++ str_of (VStr "abc")).
Proof.
  eapply (signed_in_requests_bear_the_token (answering token_payload) str_of
            (Conn.Signin ∅) localhost _ _ token_payload (VStr "abc") Conn.Info).
  - exists ∅. by left.
  - reflexivity.
  - reflexivity.
  - left. vm_compute. reflexivity.
  - reflexivity.
  - reflexivity.
  - reflexivity.
  - reflexivity.
  - reflexivity.
  - discriminate.
Defined.

Lemma invalidated_requests_bear_no_token_at_info :
  let s0 := snd (Conn.set_token "abc" localhost) in
  let s1 := snd (Conn.invalidate (answering (VDict ∅)) str_of s0) in
  token s1 = VNone
  ∧ ∃ req1,
      sent (snd (Conn.run (answering (VDict ∅)) str_of Conn.Info s1))
      = req1 :: sent s1
      ∧ headers req1 !! "Authorization" = None.
Proof.
  apply (invalidated_requests_bear_no_token (answering (VDict ∅)) str_of
           (snd (Conn.set_token "abc" localhost)) VNone Conn.Info).
  - reflexivity.
  - reflexivity.
  - discriminate.
Defined.

Lemma used_requests_carry_namespace_and_database_at_create :
  let s1 := snd (Conn.use (answering (VDict ∅)) str_of "ns1" "db1" localhost) in
  ∃ req1,
    sent (snd (Conn.run (answering (VDict ∅)) str_of
                 (Conn.Create (VStr "person") VNone) s1))
    = req1 :: sent s1
    ∧ headers req1 !! "Surreal-NS" = Some "ns1"
    ∧ headers req1 !! "Surreal-DB" = Some "db1".
Proof.
  apply (used_requests_carry_namespace_and_database (answering (VDict ∅)) str_of
           "ns1" "db1" localhost VNone (Conn.Create (VStr "person") VNone)).
  - reflexivity.
  - discriminate.
  - discriminate.
  - reflexivity.
Defined.

Lemma set_token_then_request_bears_it_at_info :
  let s1 := snd (Conn.set_token "abc" localhost) in
  sent s1 = sent localhost
  ∧ id s1 = id localhost
  ∧ ∃ req1,
      sent (snd (Conn.run unreachable str_of Conn.Info s1)) = req1 :: sent s1
      ∧ headers req1 !! "Authorization"
        = Some ("Bearer " ++ str_of (VStr "abc")).
Proof.
  apply (set_token_then_request_bears_it unreachable str_of "abc" localhost
           Conn.Info).
  - discriminate.
  - reflexivity.
  - discriminate.
Defined.

Lemma let_then_query_sends_the_value_at_session_x :
  let s1 := snd (Conn.let_ "x" (VInt 7) session_x) in
  ∃ req d,
    sent (snd (Conn.query unreachable str_of "RETURN $x" (Some 1) s1))
    = req :: sent s1
    ∧ wire_args (data req) = [("query", VStr "RETURN $x"); ("params", VDict d)]
    ∧ d !! "x" = Some (VInt 7).
Proof.
  apply (let_then_query_sends_the_value unreachable str_of "x" (VInt 7)
           "RETURN $x" (Some 1) session_x).
  - vm_compute. lia.
  - vm_compute. lia.
Defined.

Lemma unset_then_query_sends_the_callers_value_at_session_x :
  let s1 := snd (Conn.unset "x" session_x) in
  ∃ req d,
    sent (snd (Conn.query unreachable str_of "RETURN $x" (Some 1) s1))
    = req :: sent s1
    ∧ wire_args (data req) = [("query", VStr "RETURN $x"); ("params", VDict d)]
    ∧ d !! "x" = arg_dict session_x (Some 1) !! "x".
Proof.
  apply (unset_then_query_sends_the_callers_value unreachable str_of "x"
           "RETURN $x" (Some 1) session_x).
  - vm_compute. lia.
  - vm_compute. lia.
  - discriminate.
  - by exists (VInt 1).
Defined.

Lemma create_reference_pieces_at_person_tobie :
  ∃ a b rest req,
    split colon "person:tobie" = a :: b :: rest
    ∧ "person:tobie" = a ++ String colon (join colon (b :: rest))
    ∧ contains colon a = false
    ∧ contains colon b = false
    ∧ sent (snd (Conn.create unreachable str_of (VStr "person:tobie") VNone
                   localhost))
      = req :: sent localhost
    ∧ wire_args (data req)
      = [("collection", VRecordID a (VStr b)); ("data", VNone)].
Proof.
  apply (create_reference_pieces unreachable str_of "person:tobie" VNone
           localhost).
  reflexivity.
Defined.


Lemma signin_reads_six_keys_at_extra_key :
  Conn.signin unreachable str_of {[ "username" := VStr "root" ]} localhost
  = Conn.signin unreachable str_of
      {[ "username" := VStr "root"; "color" := VStr "red" ]} localhost.
Proof.
  apply (signin_reads_six_keys unreachable str_of).
  repeat constructor.
Defined.

Lemma new_connection_sends_fixed_headers_at_version :
  ∃ req,
    sent (snd (Conn.run unreachable str_of Conn.Version
                 (Conn.init "http://localhost:8000")))
    = [req]
    ∧ url req = "http://localhost:8000" ++ "/rpc"
    ∧ headers req
      = {[ "Accept" := "application/cbor"; "Content-Type" := "application/cbor" ]}.
Proof.
  apply (new_connection_sends_fixed_headers unreachable str_of
           "http://localhost:8000" Conn.Version).
  - reflexivity.
  - discriminate.
Defined.

